(** * Measure panel (panel_measure.py): distances, surface areas and volumes

    A shallow embedding of the measurement code of the panel
    [VIEW3D_PT_measure] and the statements of its specification.

    Python floats are read as real numbers (exact arithmetic); the host's
    vectors are triples of reals with the usual difference, cross product,
    dot product and Euclidean length.  What the host application owns and
    the script only calls (matrices, [mesh.transform], matrix inversion) is
    kept abstract in the section [Host]. *)

From Stdlib Require Import Reals Lra List String ZArith Lia Bool DecimalString.
Import ListNotations.
Local Open Scope R_scope.
Local Open Scope string_scope.

(** ** Python outcomes *)

(** The exceptions the script can run into. *)
Inductive exn : Type :=
| IndexError          (* sequence index out of range *)
| AttributeError      (* attribute missing on the value *)
| UnboundLocalError   (* local variable read before assignment *)
| ValueError.         (* "matrix does not have an inverse" *)

(** A call either returns a value or raises. *)
Inductive Result (A : Type) : Type :=
| Ok (a : A)
| Raise (e : exn).
Arguments Ok {A} a.
Arguments Raise {A} e.

Definition rbind {A B} (r : Result A) (k : A -> Result B) : Result B :=
  match r with
  | Ok a => k a
  | Raise e => Raise e
  end.

Declare Scope result_scope.
Delimit Scope result_scope with result.
Notation "x <- r ;; k" := (rbind r (fun x => k))
  (at level 61, r at next level, right associativity) : result_scope.

(** [seq[i]] for a sequence and a non-negative index. *)
Definition index {A} (l : list A) (i : nat) : Result A :=
  match nth_error l i with
  | Some a => Ok a
  | None => Raise IndexError
  end.

(** ** Vectors (Mathutils.Vector, 3 components) *)

Record Vector : Type := mkVector { vx : R; vy : R; vz : R }.

Definition vec_sub (a b : Vector) : Vector :=
  mkVector (vx a - vx b) (vy a - vy b) (vz a - vz b).

Definition vec_add (a b : Vector) : Vector :=
  mkVector (vx a + vx b) (vy a + vy b) (vz a + vz b).

Definition cross (a b : Vector) : Vector :=
  mkVector (vy a * vz b - vz a * vy b)
           (vz a * vx b - vx a * vz b)
           (vx a * vy b - vy a * vx b).

Definition dot (a b : Vector) : R :=
  vx a * vx b + vy a * vy b + vz a * vz b.

(** [v.length] *)
Definition vec_length (v : Vector) : R :=
  sqrt (vx v * vx v + vy v * vy v + vz v * vz v).

(** The distance every branch of the panel stores: [(a - b).length]. *)
Definition distance (a b : Vector) : R := vec_length (vec_sub a b).

(** ** Meshes *)

Record MeshVertex : Type := mkVertex {
  co : Vector;
  vert_selected : bool
}.

(** A face: its vertex indices into the mesh's vertex list, its selection
    flag and the area the host derives for it. *)
Record MeshFace : Type := mkFace {
  face_verts : list nat;
  face_selected : bool;
  face_area : R
}.

Record Mesh : Type := mkMesh {
  verts : list MeshVertex;
  faces : list MeshFace
}.

(** [scene.unit_settings] *)
Record UnitSettings : Type := mkUnitSettings {
  system : string;
  scale_length : R
}.

(** PRECISION = 6 *)
Definition PRECISION : Z := 6%Z.

(** Sum of a list of reals. *)
Definition Rsum (l : list R) : R := fold_right Rplus 0 l.

(** [x >= 0] as a Python condition. *)
Definition nonneg (x : R) : bool := if Rge_dec x 0 then true else false.

(** The scalar triple product [(v0 x v1) . v2]. *)
Definition triple (v0 v1 v2 : Vector) : R := dot (cross v0 v1) v2.

(** ** The host application *)

(** What the script calls but does not define: the matrix type of
    [Mathutils], [vec * mat], [mat.copy().invert()] (which raises
    ValueError on a matrix without inverse, hence [option]) and
    [mesh.transform(mat)] on a copy of a mesh. *)
Class Host : Type := mkHost {
  Matrix : Type;
  vec_mul_mat : Vector -> Matrix -> Vector;
  mat_invert : Matrix -> option Matrix;
  mesh_transform : Matrix -> Mesh -> Mesh
}.

Section Panel.
Context {host : Host}.

Record Object : Type := mkObject {
  obj_name : string;
  obj_type : string;
  obj_data : option Mesh;
  obj_matrix : Matrix;
  obj_location : Vector;
  obj_selected : bool
}.

(** The values that reach the parameter [obj] of the measuring methods:
    None, an object, or (from the call sites that pass [mesh_objects]
    unstarred) a list of objects. *)
Inductive PyVal : Type :=
| PyNone
| PyObj (o : Object)
| PyList (l : list Object).

Definition truthy (v : PyVal) : bool :=
  match v with
  | PyNone => false
  | PyObj _ => true
  | PyList l => negb (Nat.eqb (List.length l) 0)
  end.

(** Reading an attribute of an object ([.type], [.data], [.name], ...). *)
Definition as_object (v : PyVal) : Result Object :=
  match v with
  | PyObj o => Ok o
  | _ => Raise AttributeError
  end.

(** The part of the scene the panel reads.  The one property it writes,
    [measure_panel_dist], lives in the panel state below. *)
Record Scene : Type := mkScene {
  unit_settings : UnitSettings;
  measure_panel_transform : string;
  cursor_location : Vector
}.

Record Context : Type := mkContext {
  mode : string;
  active_object : option Object;
  selected_objects : list Object;
  scene : Scene
}.

Definition measureGlobal (scene : Scene) : bool :=
  measure_panel_transform scene =? "measure_global".

Definition measureLocal (scene : Scene) : bool :=
  measure_panel_transform scene =? "measure_local".

(** The guard [obj and obj.type == 'MESH' and obj.data] of both measuring
    methods; it gives the object and its mesh when it holds. *)
Definition mesh_guard (obj : PyVal) : Result (option (Object * Mesh)) :=
  if truthy obj then
    (o <- as_object obj ;;
     if obj_type o =? "MESH" then
       match obj_data o with
       | Some m => Ok (Some (o, m))
       | None => Ok None
       end
     else Ok None)%result
  else Ok None.

(** The loop of [objectSurfaceArea] over [mesh.faces]. *)
Fixpoint area_loop (selectedOnly : bool) (fs : list MeshFace)
    (areaTotal : R) : R :=
  match fs with
  | [] => areaTotal
  | face :: rest =>
      if negb selectedOnly || face_selected face
      then area_loop selectedOnly rest (areaTotal + face_area face)
      else area_loop selectedOnly rest areaTotal
  end.

Definition objectSurfaceArea (scene : Scene) (obj : PyVal)
    (selectedOnly globalSpace : bool) : Result R :=
  (g <- mesh_guard obj ;;
   match g with
   | Some (o, data) =>
       let mesh := if globalSpace then mesh_transform (obj_matrix o) data
                   else data in
       let areaTotal := area_loop selectedOnly (faces mesh) 0 in
       Ok (areaTotal * scale_length (unit_settings scene) ^ 2)
   | None => Ok (-1)
   end)%result.

(** The loop of [objectVolume] over [mesh.faces]: [inl v] when the loop
    body returns [v] from the method, [inr volume] when the loop ends. *)
Fixpoint volume_loop (mesh : Mesh) (fs : list MeshFace) (volume : R)
    : Result (R + R) :=
  match fs with
  | [] => Ok (inr volume)
  | face :: rest =>
      if Nat.ltb 3 (List.length (face_verts face)) then Ok (inl (-1))
      else
        (i0 <- index (face_verts face) 0 ;;
         v0 <- index (verts mesh) i0 ;;
         i1 <- index (face_verts face) 1 ;;
         v1 <- index (verts mesh) i1 ;;
         i2 <- index (face_verts face) 2 ;;
         v2 <- index (verts mesh) i2 ;;
         volume_loop mesh rest
           (volume + dot (cross (co v0) (co v1)) (co v2)))%result
  end.

Definition objectVolume (scene : Scene) (obj : PyVal) (globalSpace : bool)
    : Result R :=
  (g <- mesh_guard obj ;;
   match g with
   | None => Ok (-1)
   | Some (o, data) =>
       let mesh := if globalSpace then mesh_transform (obj_matrix o) data
                   else data in
       r <- volume_loop mesh (faces mesh) 0 ;;
       match r with
       | inl v => Ok v
       | inr volume =>
           Ok (volume / 6 * scale_length (unit_settings scene) ^ 3)
       end
   end)%result.

(** [str(degree)] for an integer. *)
Definition str_int (n : Z) : string := NilZero.string_of_int (Z.to_int n).

Definition units (scene : Scene) (degree : Z) : string :=
  let unit :=
    if system (unit_settings scene) =? "METRIC" then "m"
    else if system (unit_settings scene) =? "IMPERIAL" then "yd"
    else "BU" in
  if (0 <? degree)%Z && (degree <? 4)%Z
  then unit ++ "^" ++ str_int degree
  else unit.

(** ** The panel: layout and the displayed distance *)

(** A label's text is a concatenation of strings and of floats rendered by
    [str(round(x, ndigits))]; the float stays a number here. *)
Inductive Fragment : Type :=
| Str (s : string)
| Rounded (x : R) (ndigits : Z).

Definition Text : Type := list Fragment.

(** The layout calls, in the order they are made. *)
Inductive Widget : Type :=
| Row                                              (* layout.row() *)
| Prop_ (attr : string) (expand : bool)            (* row.prop(scene, attr) *)
| Label (text : Text) (icon : option string)       (* row.label(...) *)
| Operator (idname : string) (text : string).      (* row.operator(...) *)

(** What a redraw changes: [scene.measure_panel_dist] and the layout. *)
Record Panel : Type := mkPanel {
  measure_panel_dist : R;
  layout : list Widget
}.

(** A method of the panel: it runs on the panel state and returns or
    raises; what it did before raising stays done. *)
Definition M (A : Type) : Type := Panel -> Panel * Result A.

Definition ret {A} (a : A) : M A := fun p => (p, Ok a).

Definition bind {A B} (m : M A) (k : A -> M B) : M B :=
  fun p =>
    match m p with
    | (p', Ok a) => k a p'
    | (p', Raise e) => (p', Raise e)
    end.

Definition lift {A} (r : Result A) : M A := fun p => (p, r).

Definition emit (w : Widget) : M unit :=
  fun p => (mkPanel (measure_panel_dist p) (layout p ++ [w])%list, Ok tt).

Definition set_dist (d : R) : M unit :=
  fun p => (mkPanel d (layout p), Ok tt).

Definition when (b : bool) (m : M unit) : M unit :=
  if b then m else ret tt.

Declare Scope panel_scope.
Delimit Scope panel_scope with panel.
Notation "x <- m ;; k" := (bind m (fun x => k))
  (at level 61, m at next level, right associativity) : panel_scope.
Notation "m ;; k" := (bind m (fun _ => k))
  (at level 61, right associativity) : panel_scope.
Notation "' pat <- m ;; k" := (bind m (fun x => match x with pat => k end))
  (at level 61, pat pattern, m at next level, right associativity)
  : panel_scope.

(** The loop of [addAreasAndVolumes]; it gives back both accumulators. *)
Fixpoint addAreasAndVolumes_loop (scene : Scene) (globalCoords : bool)
    (objs : list PyVal) (total_area total_volume : R) : M (R * R) :=
  match objs with
  | [] => ret (total_area, total_volume)
  | o :: rest =>
      (area <- lift (objectSurfaceArea scene o false globalCoords) ;;
       let total_area := if nonneg area then total_area + area
                         else total_area in
       emit Row ;;
       ob <- lift (as_object o) ;;
       emit (Label [Str (obj_name ob ++ " S.A.: "); Rounded area PRECISION;
                    Str (units scene 2)] (Some "OBJECT_DATA")) ;;
       volume <- lift (objectVolume scene o globalCoords) ;;
       let total_volume := if nonneg volume then total_volume + volume
                           else total_volume in
       emit Row ;;
       ob <- lift (as_object o) ;;
       emit (Label [Str (obj_name ob ++ " Vol.: "); Rounded volume PRECISION;
                    Str (units scene 3)] (Some "OBJECT_DATA")) ;;
       addAreasAndVolumes_loop scene globalCoords rest
         total_area total_volume)%panel
  end.

(** [addAreasAndVolumes(self, *objs)]: [objs] is the tuple of the
    positional arguments of the call. *)
Definition addAreasAndVolumes (scene : Scene) (objs : list PyVal) : M R :=
  (let globalCoords := measureGlobal scene in
   ' (total_area, total_volume) <-
       addAreasAndVolumes_loop scene globalCoords objs 0 0 ;;
   when (Nat.ltb 1 (List.length objs))
     (when (nonneg total_area)
        (emit Row ;;
         emit (Label [Str "Total Area: "; Rounded total_area PRECISION;
                      Str (units scene 2)] (Some "OBJECT_DATA"))) ;;
      when (nonneg total_volume)
        (emit Row ;;
         emit (Label [Str "Total Volume: "; Rounded total_volume PRECISION;
                      Str (units scene 3)] (Some "OBJECT_DATA")))) ;;
   ret total_area)%panel.

(** Reading an attribute of a vector: only [length] is used. *)
Definition vec_attr (v : Vector) (attr : string) : Result R :=
  if attr =? "length" then Ok (vec_length v) else Raise AttributeError.

(** Reading a local variable of [draw] that may not have been assigned. *)
Definition read_local {A} (x : option A) : Result A :=
  match x with
  | Some a => Ok a
  | None => Raise UnboundLocalError
  end.

(** The closing rows shared by the branches. *)
Definition transform_row : M unit :=
  (emit Row ;; emit (Prop_ "measure_panel_transform" true))%panel.

Definition dist_row : M unit :=
  (emit Row ;; emit (Prop_ "measure_panel_dist" false))%panel.

Definition reenter_row (text : string) : M unit :=
  (emit Row ;; emit (Operator "reenter_editmode" text))%panel.

(** [ob_mat.copy().invert()] *)
Definition invert (m : Matrix) : Result Matrix :=
  match mat_invert m with
  | Some i => Ok i
  | None => Raise ValueError
  end.

(** [draw], mesh edit mode, on the active mesh object and its mesh. *)
Definition draw_edit_mesh (scene : Scene) (obj : Object) (mesh : Mesh)
    : M unit :=
  (let ob_mat := obj_matrix obj in
   ob_mat_inv <- lift (invert ob_mat) ;;
   let verts_selected := filter vert_selected (verts mesh) in
   match verts_selected with
   | [] =>
       (* len(verts_selected) == 0 *)
       d <- lift (if measureLocal scene
                  then vec_attr (vec_mul_mat
                         (vec_sub (cursor_location scene) (obj_location obj))
                         ob_mat_inv) "length"
                  else vec_attr (cursor_location scene) "length") ;;
       set_dist d ;;
       dist_row ;;
       emit Row ;;
       emit (Label [Str ""] (Some "CURSOR")) ;;
       emit (Label [Str ""] (Some "ARROW_LEFTRIGHT")) ;;
       emit (Label [Str "Origin [0,0,0]"] None) ;;
       reenter_row "Update selection & distance" ;;
       transform_row
   | [v0] =>
       (* len(verts_selected) == 1 *)
       d <- lift (if measureLocal scene
                  then vec_attr (vec_sub (co v0)
                         (vec_mul_mat
                            (vec_sub (cursor_location scene)
                                     (obj_location obj))
                            ob_mat_inv)) "length"
                  else vec_attr (vec_sub
                         (vec_add (vec_mul_mat (co v0) ob_mat)
                                  (obj_location obj))
                         (cursor_location scene)) "length") ;;
       set_dist d ;;
       dist_row ;;
       emit Row ;;
       emit (Label [Str ""] (Some "CURSOR")) ;;
       emit (Label [Str ""] (Some "ARROW_LEFTRIGHT")) ;;
       emit (Label [Str ""] (Some "VERTEXSEL")) ;;
       reenter_row "Update selection & distance" ;;
       transform_row
   | [v0; v1] =>
       (* len(verts_selected) == 2 *)
       d <- lift (if measureLocal scene
                  then vec_attr (vec_sub (co v0) (co v1)) "length"
                  else vec_attr (vec_mul_mat (vec_sub (co v0) (co v1)) ob_mat)
                         "lentgh") ;;
       set_dist d ;;
       dist_row ;;
       emit Row ;;
       emit (Label [Str ""] (Some "VERTEXSEL")) ;;
       emit (Label [Str ""] (Some "ARROW_LEFTRIGHT")) ;;
       emit (Label [Str ""] (Some "VERTEXSEL")) ;;
       reenter_row "Update selection & distance" ;;
       transform_row
   | _ =>
       let faces_selected := filter face_selected (faces mesh) in
       if Nat.ltb 0 (List.length faces_selected) then
         area <- lift (objectSurfaceArea scene (PyObj obj) true
                         (measureGlobal scene)) ;;
         emit Row ;;
         emit (Label [Str "Selected Face Area: "; Rounded area PRECISION;
                      Str (units scene 2)] (Some "FACESEL")) ;;
         reenter_row "Update selection & area" ;;
         transform_row
       else
         emit Row ;;
         emit (Label [Str "Selection not supported."] (Some "INFO")) ;;
         reenter_row "Update selection"
   end)%panel.

(** The condition [obj and obj.selected and context.selected_objects and
    len(context.selected_objects) == 1]; it gives the active object when it
    holds. *)
Definition one_selected (obj : option Object) (selected : list Object)
    : option Object :=
  match obj with
  | Some o =>
      if obj_selected o && Nat.eqb (List.length selected) 1 then Some o
      else None
  | None => None
  end.

(** [o.data] as a condition. *)
Definition has_data (o : Object) : bool :=
  match obj_data o with
  | Some _ => true
  | None => false
  end.

(** [draw], object mode. *)
Definition draw_object (context : Context) : M unit :=
  (let scene := scene context in
   let obj := active_object context in
   let selected := selected_objects context in
   if Nat.ltb 2 (List.length selected) then
     (* more than 2 objects selected *)
     let mesh_objects :=
       filter (fun o => (obj_type o =? "MESH") && has_data o) selected in
     when (Nat.ltb 0 (List.length mesh_objects))
       (_ <- addAreasAndVolumes scene [PyList mesh_objects] ;;
        transform_row)
   else if Nat.eqb (List.length selected) 2 then
     (* 2 objects selected; [mesh_objects] is not assigned on this path *)
     let mesh_objects : option (list Object) := None in
     obj1 <- lift (index selected 0) ;;
     obj2 <- lift (index selected 1) ;;
     d <- lift (vec_attr (vec_sub (obj_location obj1) (obj_location obj2))
                  "length") ;;
     set_dist d ;;
     dist_row ;;
     emit Row ;;
     emit (Label [Str (obj_name obj1)] (Some "OBJECT_DATA")) ;;
     emit (Label [Str ""] (Some "ARROW_LEFTRIGHT")) ;;
     emit (Label [Str (obj_name obj2)] (Some "OBJECT_DATA")) ;;
     l <- lift (read_local mesh_objects) ;;
     _ <- addAreasAndVolumes scene [PyList l] ;;
     transform_row
   else match one_selected obj selected with
   | Some o =>
     (* one object selected, and the active object is selected *)
     d <- lift (vec_attr (vec_sub (obj_location o) (cursor_location scene))
                  "length") ;;
     set_dist d ;;
     dist_row ;;
     emit Row ;;
     emit (Label [Str ""] (Some "CURSOR")) ;;
     emit (Label [Str ""] (Some "ARROW_LEFTRIGHT")) ;;
     emit (Label [Str (obj_name o)] (Some "OBJECT_DATA")) ;;
     _ <- addAreasAndVolumes scene [PyObj o] ;;
     transform_row
   | None =>
   if Nat.eqb (List.length selected) 0 then
     (* nothing selected *)
     let dist_vec := cursor_location scene in
     d <- lift (vec_attr dist_vec "length") ;;
     set_dist d ;;
     dist_row ;;
     emit Row ;;
     emit (Label [Str ""] (Some "CURSOR")) ;;
     emit (Label [Str ""] (Some "ARROW_LEFTRIGHT")) ;;
     emit (Label [Str "Origin [0,0,0]"] None)
   else
     emit Row ;;
     emit (Label [Str "Selection not supported."] (Some "INFO"))
   end)%panel.

(** [VIEW3D_PT_measure.draw]: the selection dispatcher.  The two
    property declarations at its head ([measure_panel_dist],
    [measure_panel_transform]) are the host's; the panel state and the
    scene carry their values. *)
Definition draw (context : Context) : M unit :=
  if mode context =? "EDIT_MESH" then
    match active_object context with
    | Some obj =>
        if obj_type obj =? "MESH" then
          match obj_data obj with
          | Some mesh => draw_edit_mesh (scene context) obj mesh
          | None => ret tt
          end
        else ret tt
    | None => ret tt
    end
  else if mode context =? "OBJECT" then draw_object context
  else ret tt.

(** ** The two single-measure aggregations *)

(** The loop of [addObjectAreas]. *)
Fixpoint addObjectAreas_loop (scene : Scene) (globalCoords : bool)
    (objs : list PyVal) (total_area : R) : M R :=
  match objs with
  | [] => ret total_area
  | o :: rest =>
      (area <- lift (objectSurfaceArea scene o false globalCoords) ;;
       let total_area := if nonneg area then total_area + area
                         else total_area in
       emit Row ;;
       ob <- lift (as_object o) ;;
       emit (Label [Str (obj_name ob ++ " S.A.: "); Rounded area PRECISION;
                    Str (units scene 2)] (Some "OBJECT_DATA")) ;;
       addObjectAreas_loop scene globalCoords rest total_area)%panel
  end.

(** [addObjectAreas(self, *objs)] *)
Definition addObjectAreas (scene : Scene) (objs : list PyVal) : M R :=
  (let globalCoords := measureGlobal scene in
   total_area <- addObjectAreas_loop scene globalCoords objs 0 ;;
   when (Nat.ltb 1 (List.length objs) && nonneg total_area)
     (emit Row ;;
      emit (Label [Str "Total Area: "; Rounded total_area PRECISION;
                   Str (units scene 2)] (Some "OBJECT_DATA"))) ;;
   ret total_area)%panel.

(** The loop of [addObjectVolumes]. *)
Fixpoint addObjectVolumes_loop (scene : Scene) (globalCoords : bool)
    (objs : list PyVal) (total_volume : R) : M R :=
  match objs with
  | [] => ret total_volume
  | o :: rest =>
      (volume <- lift (objectVolume scene o globalCoords) ;;
       let total_volume := if nonneg volume then total_volume + volume
                           else total_volume in
       emit Row ;;
       ob <- lift (as_object o) ;;
       emit (Label [Str (obj_name ob ++ " Vol.: "); Rounded volume PRECISION;
                    Str (units scene 3)] (Some "OBJECT_DATA")) ;;
       addObjectVolumes_loop scene globalCoords rest total_volume)%panel
  end.

(** [addObjectVolumes(self, *objs)] *)
Definition addObjectVolumes (scene : Scene) (objs : list PyVal) : M R :=
  (let globalCoords := measureGlobal scene in
   total_volume <- addObjectVolumes_loop scene globalCoords objs 0 ;;
   when (Nat.ltb 1 (List.length objs) && nonneg total_volume)
     (emit Row ;;
      emit (Label [Str "Total Volume: "; Rounded total_volume PRECISION;
                   Str (units scene 3)] (Some "OBJECT_DATA"))) ;;
   ret total_volume)%panel.

(** ** Vocabulary of the statements *)

(** The mesh a measuring method works on: a transformed copy in global
    space, the object's own data otherwise. *)
Definition working_mesh (o : Object) (data : Mesh) (globalSpace : bool)
    : Mesh :=
  if globalSpace then mesh_transform (obj_matrix o) data else data.

(** A mesh object with mesh data. *)
Definition mesh_object (o : Object) (data : Mesh) : Prop :=
  obj_type o = "MESH" /\ obj_data o = Some data.

(** Every face is a triangle. *)
Definition triangles (m : Mesh) : Prop :=
  Forall (fun f => List.length (face_verts f) = 3%nat) (faces m).

(** Every face has at least three vertex indices, and every index of a
    face points into the vertex list of the mesh. *)
Definition well_formed (m : Mesh) : Prop :=
  Forall (fun f => (3 <= List.length (face_verts f))%nat /\
                   Forall (fun i => (i < List.length (verts m))%nat)
                          (face_verts f))
         (faces m).

(** The faces [objectSurfaceArea] counts: the selected ones when
    [selectedOnly], all of them otherwise. *)
Definition counted_faces (selectedOnly : bool) (m : Mesh) : list MeshFace :=
  if selectedOnly then filter face_selected (faces m) else faces m.

(** An object [objectVolume] can walk through: if it is a mesh object, its
    working mesh is well formed. *)
Definition object_well_formed (globalSpace : bool) (o : Object) : Prop :=
  forall data, mesh_object o data ->
               well_formed (working_mesh o data globalSpace).

(** The two accumulators of [addAreasAndVolumes] after its loop over the
    objects [objs], from the panel state [p]. *)
Definition totals (scene : Scene) (objs : list Object) (p : Panel)
    : Result (R * R) :=
  snd (addAreasAndVolumes_loop scene (measureGlobal scene)
         (map PyObj objs) 0 0 p).

(** The coordinates of vertex [i] of the mesh. *)
Definition vertex_co (m : Mesh) (i : nat) : Vector :=
  match nth_error (verts m) i with
  | Some v => co v
  | None => mkVector 0 0 0
  end.

(** The scalar triple product of the three vertices of a triangle. *)
Definition face_triple (m : Mesh) (f : MeshFace) : R :=
  match face_verts f with
  | [i0; i1; i2] =>
      triple (vertex_co m i0) (vertex_co m i1) (vertex_co m i2)
  | _ => 0
  end.

(** The unit cube [0,1]^3 as 12 triangles wound outwards; vertex [i] has
    the bits of [i] as coordinates. *)
Definition cube_verts : list MeshVertex :=
  map (fun c => mkVertex c false)
    [mkVector 0 0 0; mkVector 1 0 0; mkVector 0 1 0; mkVector 1 1 0;
     mkVector 0 0 1; mkVector 1 0 1; mkVector 0 1 1; mkVector 1 1 1].

Definition tri (i j k : nat) : MeshFace := mkFace [i; j; k] false (1 / 2).

Definition cube_faces : list MeshFace :=
  [tri 0 2 3; tri 0 3 1;     (* z = 0 *)
   tri 4 5 7; tri 4 7 6;     (* z = 1 *)
   tri 0 1 5; tri 0 5 4;     (* y = 0 *)
   tri 2 6 7; tri 2 7 3;     (* y = 1 *)
   tri 0 4 6; tri 0 6 2;     (* x = 0 *)
   tri 1 3 7; tri 1 7 5]%nat. (* x = 1 *)

Definition cube_mesh : Mesh := mkMesh cube_verts cube_faces.

Definition cube_object (mat : Matrix) : Object :=
  mkObject "Cube" "MESH" (Some cube_mesh) mat (mkVector 0 0 0) true.

(** A scene with no unit system and the given scale and space. *)
Definition plain_scene (scale : R) (space : string) : Scene :=
  mkScene (mkUnitSettings "NONE" scale) space (mkVector 0 0 0).

(** A metric scene with scale 1, in global space. *)
Definition metric_scene : Scene :=
  mkScene (mkUnitSettings "METRIC" 1) "measure_global" (mkVector 0 0 0).

(** The cube with its faces wound inwards. *)
Definition inward_cube_mesh : Mesh :=
  mkMesh cube_verts
    (map (fun f => match face_verts f with
                   | [i; j; k] => tri i k j
                   | _ => f
                   end) cube_faces).

Definition inward_cube (mat : Matrix) : Object :=
  mkObject "Inward" "MESH" (Some inward_cube_mesh) mat (mkVector 0 0 0) true.

(** Triangles and one quad (the face z = 1 of the cube). *)
Definition mixed_mesh : Mesh :=
  mkMesh cube_verts
    [tri 0 2 3; tri 0 3 1; mkFace [4; 5; 7; 6]%nat false 1; tri 0 1 5].

Definition mixed_object (mat : Matrix) : Object :=
  mkObject "Mixed" "MESH" (Some mixed_mesh) mat (mkVector 0 0 0) true.

(** Four faces, the first and the third selected. *)
Definition four_faces_mesh : Mesh :=
  mkMesh cube_verts
    [mkFace [0; 2; 3]%nat true (1 / 2); mkFace [0; 3; 1]%nat false 7;
     mkFace [4; 5; 7; 6]%nat true 1; mkFace [0; 1; 5]%nat false 9].

Definition four_faces_object (mat : Matrix) : Object :=
  mkObject "Four" "MESH" (Some four_faces_mesh) mat (mkVector 0 0 0) true.

(** An object that is not a mesh and has no data. *)
Definition empty_object (mat : Matrix) : Object :=
  mkObject "Empty" "EMPTY" None mat (mkVector 0 0 0) true.

(** The cube mesh as an object at a location. *)
Definition cube_at (name : string) (loc : Vector) (mat : Matrix) : Object :=
  mkObject name "MESH" (Some cube_mesh) mat loc true.

(** Object mode, two objects selected, at (0,0,0) and (3,4,0). *)
Definition two_objects_context (mat1 mat2 : Matrix) : Context :=
  mkContext "OBJECT"
    (Some (cube_at "B" (mkVector 3 4 0) mat2))
    [cube_at "A" (mkVector 0 0 0) mat1; cube_at "B" (mkVector 3 4 0) mat2]
    (plain_scene 1 "measure_global").

(** A mesh of two vertices, (0,0,0) and (1,1,1), both selected. *)
Definition segment_mesh : Mesh :=
  mkMesh [mkVertex (mkVector 0 0 0) true; mkVertex (mkVector 1 1 1) true] [].

Definition segment_object (mat : Matrix) : Object :=
  mkObject "Segment" "MESH" (Some segment_mesh) mat (mkVector 0 0 0) true.

(** Mesh edit mode on the segment, in the given space. *)
Definition two_vertices_context (mat : Matrix) (space : string) : Context :=
  mkContext "EDIT_MESH" (Some (segment_object mat)) [segment_object mat]
    (plain_scene 1 space).

(** ** Vocabulary of the further properties *)

(** The rows [addAreasAndVolumes] lays out for one object. *)
Definition object_rows (scene : Scene) (o : Object) (area volume : R)
    : list Widget :=
  [Row;
   Label [Str (obj_name o ++ " S.A.: "); Rounded area PRECISION;
          Str (units scene 2)] (Some "OBJECT_DATA");
   Row;
   Label [Str (obj_name o ++ " Vol.: "); Rounded volume PRECISION;
          Str (units scene 3)] (Some "OBJECT_DATA")].

(** The rows for a list of objects and their measured areas and volumes. *)
Fixpoint objects_rows (scene : Scene) (objs : list Object)
    (areas volumes : list R) : list Widget :=
  match objs, areas, volumes with
  | o :: objs', a :: areas', v :: volumes' =>
      (object_rows scene o a v ++ objects_rows scene objs' areas' volumes')%list
  | _, _, _ => []
  end.

(** The two closing rows with the totals. *)
Definition total_rows (scene : Scene) (total_area total_volume : R)
    : list Widget :=
  [Row;
   Label [Str "Total Area: "; Rounded total_area PRECISION;
          Str (units scene 2)] (Some "OBJECT_DATA");
   Row;
   Label [Str "Total Volume: "; Rounded total_volume PRECISION;
          Str (units scene 3)] (Some "OBJECT_DATA")].

(** A method only adds to the layout, whatever its outcome. *)
Definition grows {A} (m : M A) : Prop :=
  forall p, exists added, layout (fst (m p)) = (layout p ++ added)%list.

(** A method leaves the stored distance alone, whatever its outcome. *)
Definition keeps_dist {A} (m : M A) : Prop :=
  forall p, measure_panel_dist (fst (m p)) = measure_panel_dist p.

(** The same triangle wound the other way round. *)
Definition flip_face (f : MeshFace) : MeshFace :=
  match face_verts f with
  | [i0; i1; i2] => mkFace [i0; i2; i1] (face_selected f) (face_area f)
  | _ => f
  end.

Definition flip_mesh (m : Mesh) : Mesh :=
  mkMesh (verts m) (map flip_face (faces m)).

(** A mesh object in local coordinates with the given mesh. *)
Definition mesh_holder (name : string) (m : Mesh) (mat : Matrix) : Object :=
  mkObject name "MESH" (Some m) mat (mkVector 0 0 0) true.

(** A mesh whose second face names vertex 9 of 8. *)
Definition broken_mesh : Mesh :=
  mkMesh cube_verts [tri 0 2 3; tri 0 9 1; tri 4 5 7].

Definition broken_object (mat : Matrix) : Object :=
  mkObject "Broken" "MESH" (Some broken_mesh) mat (mkVector 0 0 0) true.

(** The vertices of the cube, all selected, with the four faces above. *)
Definition selected_mesh : Mesh :=
  mkMesh (map (fun v => mkVertex (co v) true) cube_verts)
         (faces four_faces_mesh).

Definition selected_object (mat : Matrix) : Object :=
  mkObject "Selected" "MESH" (Some selected_mesh) mat (mkVector 0 0 0) true.

(** A mesh with one selected vertex, (1,2,2), among three. *)
Definition one_vertex_mesh : Mesh :=
  mkMesh [mkVertex (mkVector 0 0 0) false; mkVertex (mkVector 1 2 2) true;
          mkVertex (mkVector 1 0 0) false] [].

Definition one_vertex_object (mat : Matrix) : Object :=
  mkObject "Point" "MESH" (Some one_vertex_mesh) mat (mkVector 1 1 1) true.

(** Mesh edit mode on an object, in the given space, cursor at the
    origin. *)
Definition edit_context (o : Object) (space : string) : Context :=
  mkContext "EDIT_MESH" (Some o) [o] (plain_scene 1 space).

(** Object mode with the given active object and selection. *)
Definition object_context (active : option Object) (selected : list Object)
    : Context :=
  mkContext "OBJECT" active selected (plain_scene 1 "measure_local").

(** A face the loop of [objectVolume] cannot read: it has at most three
    indices, and fewer than three or one out of range. *)
Definition unreadable_face (m : Mesh) (f : MeshFace) : Prop :=
  (List.length (face_verts f) <= 3)%nat /\
  ((List.length (face_verts f) < 3)%nat \/
   Exists (fun i => (List.length (verts m) <= i)%nat) (face_verts f)).

End Panel.

(** A host whose objects all carry the identity transform. *)
Definition identity_host : Host :=
  {| Matrix := unit;
     vec_mul_mat := fun v _ => v;
     mat_invert := fun _ => Some tt;
     mesh_transform := fun _ m => m |}.

(** Its one matrix. *)
Definition identity_matrix : @Matrix identity_host := tt.

(** Example objects of the identity host: the cube, an object without
    data, the mesh with a quad and the inward-wound cube. *)
Definition the_cube : @Object identity_host := cube_object identity_matrix.
Definition the_empty : @Object identity_host := empty_object identity_matrix.
Definition the_mixed : @Object identity_host := mixed_object identity_matrix.
Definition the_inward : @Object identity_host := inward_cube identity_matrix.
Definition the_broken : @Object identity_host :=
  broken_object identity_matrix.

(** * Properties *)

Section Properties.
Context {host : Host}.

(** One turn of the loop of [objectVolume] on a triangle. *)
Lemma volume_loop_triangle (mesh : Mesh) (f : MeshFace) (rest : list MeshFace)
    (volume : R) :
  List.length (face_verts f) = 3%nat ->
  Forall (fun i => (i < List.length (verts mesh))%nat) (face_verts f) ->
  volume_loop mesh (f :: rest) volume
  = volume_loop mesh rest (volume + face_triple mesh f).
Proof.
  intros H3 Hf. simpl. unfold face_triple.
  destruct (face_verts f) as [|i0 [|i1 [|i2 [|? ?]]]]; try discriminate.
  simpl.
  inversion Hf as [|? ? H0 Hf1]; subst.
  inversion Hf1 as [|? ? H1 Hf2]; subst.
  inversion Hf2 as [|? ? H2 _]; subst.
  unfold index, vertex_co.
  apply nth_error_Some in H0, H1, H2.
  destruct (nth_error (verts mesh) i0); [|congruence].
  destruct (nth_error (verts mesh) i1); [|congruence].
  destruct (nth_error (verts mesh) i2); [|congruence].
  reflexivity.
Qed.

Lemma volume_loop_triangles (mesh : Mesh) (fs : list MeshFace) :
  Forall (fun f => List.length (face_verts f) = 3%nat) fs ->
  Forall (fun f => Forall (fun i => (i < List.length (verts mesh))%nat)
                          (face_verts f)) fs ->
  forall volume,
    volume_loop mesh fs volume
    = Ok (inr (volume + Rsum (map (face_triple mesh) fs))).
Proof.
  induction fs as [|f fs IH]; intros Htri Hin volume.
  - simpl. f_equal. f_equal. lra.
  - inversion Htri as [|? ? H3 Htri']; subst.
    inversion Hin as [|? ? Hf Hin']; subst.
    rewrite volume_loop_triangle by assumption.
    rewrite IH by assumption.
    simpl. f_equal. f_equal. lra.
Qed.

(** A face with more than 3 vertices ends the loop with -1, whatever the
    well-formed faces before it are. *)
Lemma volume_loop_quad (mesh : Mesh) (fs : list MeshFace) :
  Forall (fun f => (3 <= List.length (face_verts f))%nat /\
                   Forall (fun i => (i < List.length (verts mesh))%nat)
                          (face_verts f)) fs ->
  Exists (fun f => (3 < List.length (face_verts f))%nat) fs ->
  forall volume, volume_loop mesh fs volume = Ok (inl (-1)).
Proof.
  induction fs as [|f fs IH]; intros Hwf Hex volume.
  - inversion Hex.
  - inversion Hwf as [|? ? [Hlen Hf] Hwf']; subst.
    destruct (Nat.ltb 3 (List.length (face_verts f))) eqn:E.
    + simpl. rewrite E. reflexivity.
    + apply Nat.ltb_ge in E.
      rewrite volume_loop_triangle by (assumption || lia).
      apply IH; [assumption|].
      inversion Hex as [? ? Hq|? ? Hq]; subst; [lia | assumption].
Qed.

Lemma mesh_guard_object (o : Object) (data : Mesh) :
  mesh_object o data -> mesh_guard (PyObj o) = Ok (Some (o, data)).
Proof.
  intros [Ht Hd]. unfold mesh_guard. simpl. rewrite Ht, Hd. reflexivity.
Qed.

(** Well-formedness of a concrete mesh, face by face. *)
Ltac concrete_well_formed :=
  unfold well_formed; simpl;
  repeat (constructor;
          [split; [simpl; lia | repeat (constructor; [simpl; lia|]);
                                constructor]|]);
  constructor.

Lemma cube_triangles : triangles cube_mesh.
Proof. unfold triangles. simpl. repeat constructor. Qed.

Lemma cube_well_formed : well_formed cube_mesh.
Proof. concrete_well_formed. Qed.

Lemma inward_cube_well_formed : well_formed inward_cube_mesh.
Proof. concrete_well_formed. Qed.

Lemma mixed_well_formed : well_formed mixed_mesh.
Proof. concrete_well_formed. Qed.

Lemma object_well_formed_data (g : bool) (o : Object) (data : Mesh) :
  obj_data o = Some data ->
  well_formed (working_mesh o data g) ->
  object_well_formed g o.
Proof.
  intros Hd Hwf data' [_ Hd']. rewrite Hd in Hd'.
  injection Hd' as <-. exact Hwf.
Qed.

Lemma object_well_formed_no_data (g : bool) (o : Object) :
  obj_data o = None -> object_well_formed g o.
Proof. intros Hd data [_ Hd']. congruence. Qed.

Lemma well_formed_triangles_in_range (m : Mesh) :
  well_formed m ->
  Forall (fun f => Forall (fun i => (i < List.length (verts m))%nat)
                          (face_verts f)) (faces m).
Proof.
  unfold well_formed. intros H. eapply Forall_impl; [|exact H].
  intros f [_ Hf]. exact Hf.
Qed.

Lemma cube_triple_sum : Rsum (map (face_triple cube_mesh) cube_faces) = 6.
Proof. unfold face_triple, triple, vertex_co, dot, cross. simpl. lra. Qed.

Lemma objectVolume_triangles_sum (scene : Scene) (o : Object) (data : Mesh)
    (globalSpace : bool) :
  mesh_object o data ->
  triangles (working_mesh o data globalSpace) ->
  well_formed (working_mesh o data globalSpace) ->
  objectVolume scene (PyObj o) globalSpace
  = Ok (Rsum (map (face_triple (working_mesh o data globalSpace))
                  (faces (working_mesh o data globalSpace)))
        / 6 * scale_length (unit_settings scene) ^ 3).
Proof.
  intros Hobj Htri Hwf.
  unfold objectVolume. rewrite (mesh_guard_object o data Hobj). simpl.
  fold (working_mesh o data globalSpace).
  rewrite (volume_loop_triangles _ _ Htri
             (well_formed_triangles_in_range _ Hwf)).
  simpl. f_equal. lra.
Qed.

(** C1. On a mesh object whose faces are all triangles, [objectVolume]
    returns the sum over the faces of the scalar triple product
    [(v0 x v1) . v2] of the face's vertex coordinates, divided by 6 and
    multiplied by [scale^3]; on the unit cube of 12 outward-wound triangles
    with scale 1 the result is 1, within 1e-6. *)
Theorem objectVolume_triangle_mesh :
  (forall (scene : Scene) (o : Object) (data : Mesh) (globalSpace : bool),
      mesh_object o data ->
      triangles (working_mesh o data globalSpace) ->
      well_formed (working_mesh o data globalSpace) ->
      objectVolume scene (PyObj o) globalSpace
      = Ok (Rsum (map (face_triple (working_mesh o data globalSpace))
                      (faces (working_mesh o data globalSpace)))
            / 6 * scale_length (unit_settings scene) ^ 3))
  /\ (forall (mat : Matrix) (space : string),
        exists v, objectVolume (plain_scene 1 space) (PyObj (cube_object mat))
                    false = Ok v
                  /\ Rabs (v - 1) <= 1 / 1000000).
Proof.
  split; [exact objectVolume_triangles_sum|].
  intros mat space. exists 1. split.
  - rewrite (objectVolume_triangles_sum _ _ cube_mesh false).
    + unfold working_mesh. change (faces cube_mesh) with cube_faces.
      rewrite cube_triple_sum. simpl. f_equal. lra.
    + split; reflexivity.
    + exact cube_triangles.
    + exact cube_well_formed.
  - replace (1 - 1) with 0 by lra. rewrite Rabs_R0. lra.
Qed.

(** The inward-wound cube at scale 2 has signed volume -8. *)
Lemma inward_cube_volume (mat : Matrix) (space : string) :
  objectVolume (plain_scene 2 space) (PyObj (inward_cube mat)) false
  = Ok (-8).
Proof.
  rewrite (objectVolume_triangles_sum _ _ inward_cube_mesh false).
  - unfold working_mesh, face_triple, triple, vertex_co, dot, cross. simpl.
    f_equal. lra.
  - split; reflexivity.
  - unfold triangles. simpl. repeat constructor.
  - exact inward_cube_well_formed.
Qed.

(** C2. On a mesh object with a face of more than 3 vertices,
    [objectVolume] returns the sentinel -1 (a negative value) and does not
    raise, whatever the other faces are. *)
Theorem objectVolume_quad_unsupported :
  forall (scene : Scene) (o : Object) (data : Mesh) (globalSpace : bool),
    mesh_object o data ->
    well_formed (working_mesh o data globalSpace) ->
    Exists (fun f => (3 < List.length (face_verts f))%nat)
           (faces (working_mesh o data globalSpace)) ->
    objectVolume scene (PyObj o) globalSpace = Ok (-1) /\ -1 < 0.
Proof.
  intros scene o data globalSpace Hobj Hwf Hquad. split; [|lra].
  unfold objectVolume. rewrite (mesh_guard_object o data Hobj). simpl.
  fold (working_mesh o data globalSpace).
  rewrite (volume_loop_quad _ _ Hwf Hquad). reflexivity.
Qed.

Lemma area_loop_sum (selectedOnly : bool) (fs : list MeshFace) :
  forall areaTotal,
    area_loop selectedOnly fs areaTotal
    = areaTotal
      + Rsum (map face_area
                (if selectedOnly then filter face_selected fs else fs)).
Proof.
  induction fs as [|f fs IH]; intros areaTotal; simpl.
  - destruct selectedOnly; simpl; lra.
  - destruct selectedOnly; simpl.
    + destruct (face_selected f); simpl; rewrite IH; simpl; lra.
    + rewrite IH. simpl. lra.
Qed.

Lemma objectSurfaceArea_mesh (scene : Scene) (o : Object) (data : Mesh)
    (selectedOnly globalSpace : bool) :
  mesh_object o data ->
  objectSurfaceArea scene (PyObj o) selectedOnly globalSpace
  = Ok (Rsum (map face_area
                (counted_faces selectedOnly
                   (working_mesh o data globalSpace)))
        * scale_length (unit_settings scene) ^ 2).
Proof.
  intros Hobj. unfold objectSurfaceArea.
  rewrite (mesh_guard_object o data Hobj). simpl.
  fold (working_mesh o data globalSpace).
  rewrite area_loop_sum. unfold counted_faces. f_equal. lra.
Qed.

Lemma Rsum_nonneg (l : list R) : Forall (fun x => 0 <= x) l -> 0 <= Rsum l.
Proof.
  induction 1 as [|x l Hx _ IH]; simpl; lra.
Qed.

(** C3. On a mesh object, [objectSurfaceArea] returns the sum of
    [face.area] over the selected faces when [selectedOnly] (over all faces
    otherwise), multiplied by [scale^2]; with 2 of 4 faces selected it is
    the sum of those two areas, and it is the same for any other mesh whose
    selected faces are the same, whatever its unselected faces are. *)
Theorem objectSurfaceArea_selected_sum :
  forall (scene : Scene) (o : Object) (data : Mesh)
         (selectedOnly globalSpace : bool),
    mesh_object o data ->
    objectSurfaceArea scene (PyObj o) selectedOnly globalSpace
    = Ok (Rsum (map face_area
                  (counted_faces selectedOnly
                     (working_mesh o data globalSpace)))
          * scale_length (unit_settings scene) ^ 2)
    /\ (forall fa fb : MeshFace,
          List.length (faces (working_mesh o data globalSpace)) = 4%nat ->
          filter face_selected (faces (working_mesh o data globalSpace))
          = [fa; fb] ->
          objectSurfaceArea scene (PyObj o) true globalSpace
          = Ok ((face_area fa + face_area fb)
                * scale_length (unit_settings scene) ^ 2))
    /\ (forall (o' : Object) (data' : Mesh),
          mesh_object o' data' ->
          filter face_selected (faces (working_mesh o' data' globalSpace))
          = filter face_selected (faces (working_mesh o data globalSpace)) ->
          objectSurfaceArea scene (PyObj o') true globalSpace
          = objectSurfaceArea scene (PyObj o) true globalSpace).
Proof.
  intros scene o data selectedOnly globalSpace Hobj.
  split; [apply objectSurfaceArea_mesh; exact Hobj|]. split.
  - intros fa fb _ Hsel.
    rewrite (objectSurfaceArea_mesh scene o data true globalSpace Hobj).
    unfold counted_faces. rewrite Hsel. simpl. f_equal. lra.
  - intros o' data' Hobj' Hsame.
    rewrite (objectSurfaceArea_mesh scene o data true globalSpace Hobj).
    rewrite (objectSurfaceArea_mesh scene o' data' true globalSpace Hobj').
    unfold counted_faces. rewrite Hsame. reflexivity.
Qed.

(** C4. On None, on an object that is not a mesh and on an object without
    mesh data, [objectSurfaceArea] returns the sentinel -1 and does not
    raise; on a mesh object with mesh data it returns the computed area,
    which is not negative (the areas of the faces are not), so it is never
    the sentinel. *)
Theorem objectSurfaceArea_sentinel :
  forall (scene : Scene) (selectedOnly globalSpace : bool),
    objectSurfaceArea scene PyNone selectedOnly globalSpace = Ok (-1)
    /\ (forall o : Object,
          obj_type o <> "MESH" \/ obj_data o = None ->
          objectSurfaceArea scene (PyObj o) selectedOnly globalSpace
          = Ok (-1))
    /\ (forall (o : Object) (data : Mesh),
          mesh_object o data ->
          Forall (fun f => 0 <= face_area f)
                 (faces (working_mesh o data globalSpace)) ->
          exists area,
            objectSurfaceArea scene (PyObj o) selectedOnly globalSpace
            = Ok area
            /\ area = Rsum (map face_area
                              (counted_faces selectedOnly
                                 (working_mesh o data globalSpace)))
                      * scale_length (unit_settings scene) ^ 2
            /\ 0 <= area /\ area <> -1).
Proof.
  intros scene selectedOnly globalSpace. split; [reflexivity|]. split.
  - intros o [Ht|Hd]; unfold objectSurfaceArea, mesh_guard; simpl.
    + apply String.eqb_neq in Ht. rewrite Ht. reflexivity.
    + rewrite Hd. destruct (obj_type o =? "MESH"); reflexivity.
  - intros o data Hobj Hareas.
    eexists. split; [apply objectSurfaceArea_mesh; exact Hobj|].
    split; [reflexivity|].
    assert (Hsum : 0 <= Rsum (map face_area
                     (counted_faces selectedOnly
                        (working_mesh o data globalSpace)))).
    { apply Rsum_nonneg. apply Forall_map.
      unfold counted_faces. destruct selectedOnly; [|exact Hareas].
      apply Forall_forall. intros f Hf. apply filter_In in Hf.
      rewrite Forall_forall in Hareas. apply Hareas. tauto. }
    assert (Hsq : 0 <= scale_length (unit_settings scene) ^ 2)
      by apply pow2_ge_0.
    assert (Hprod := Rmult_le_pos _ _ Hsum Hsq).
    split; [exact Hprod | lra].
Qed.

Example units_metric_area : units (plain_scene 1 "measure_global") 2 = "BU^2".
Proof. reflexivity. Qed.

Example str_int_negative : str_int (-12) = "-12".
Proof. reflexivity. Qed.

(** C8, as the code has it.  [units] returns "m" for METRIC, "yd" for
    IMPERIAL and "BU" otherwise, followed by "^" and the degree exactly
    when the degree is 1, 2 or 3, and by nothing otherwise. *)
Theorem units_label :
  forall (scene : Scene) (degree : Z),
    exists unit : string,
      (system (unit_settings scene) = "METRIC" -> unit = "m")
      /\ (system (unit_settings scene) = "IMPERIAL" -> unit = "yd")
      /\ (system (unit_settings scene) <> "METRIC" ->
           system (unit_settings scene) <> "IMPERIAL" -> unit = "BU")
      /\ (degree = 1%Z -> units scene degree = unit ++ "^1")
      /\ (degree = 2%Z -> units scene degree = unit ++ "^2")
      /\ (degree = 3%Z -> units scene degree = unit ++ "^3")
      /\ ((degree <= 0)%Z \/ (4 <= degree)%Z -> units scene degree = unit).
Proof.
  intros scene degree. unfold units.
  set (unit := if system (unit_settings scene) =? "METRIC" then "m"
               else if system (unit_settings scene) =? "IMPERIAL" then "yd"
               else "BU").
  exists unit. repeat split.
  - intros H. subst unit. rewrite H. reflexivity.
  - intros H. subst unit. rewrite H. reflexivity.
  - intros Hm Hi. subst unit.
    apply String.eqb_neq in Hm, Hi. rewrite Hm, Hi. reflexivity.
  - intros ->. reflexivity.
  - intros ->. reflexivity.
  - intros ->. reflexivity.
  - intros [H|H].
    + replace (0 <? degree)%Z with false by (symmetry; apply Z.ltb_ge; lia).
      reflexivity.
    + replace (degree <? 4)%Z with false by (symmetry; apply Z.ltb_ge; lia).
      rewrite andb_false_r. reflexivity.
Qed.

(** C9. The distance the panel stores, the Euclidean length of the
    difference of two points, is symmetric and is 0 on equal points. *)
Theorem distance_symmetric :
  forall a b : Vector,
    distance a b = distance b a
    /\ distance a a = 0
    /\ vec_attr (vec_sub a b) "length" = Ok (distance a b).
Proof.
  intros a b. unfold distance, vec_length, vec_sub. simpl. repeat split.
  - f_equal. ring.
  - replace ((vx a - vx a) * (vx a - vx a) + (vy a - vy a) * (vy a - vy a)
             + (vz a - vz a) * (vz a - vz a)) with 0 by ring.
    apply sqrt_0.
Qed.

(** ** Aggregation *)

Lemma nonneg_true (x : R) : nonneg x = true -> 0 <= x.
Proof. unfold nonneg. destruct (Rge_dec x 0); [lra | discriminate]. Qed.

Lemma nonneg_false (x : R) : x < 0 -> nonneg x = false.
Proof.
  intros H. unfold nonneg. destruct (Rge_dec x 0); [lra | reflexivity].
Qed.

Lemma Rsum_filter_nonneg (l : list R) : 0 <= Rsum (filter nonneg l).
Proof.
  apply Rsum_nonneg. apply Forall_forall. intros x Hx.
  apply filter_In in Hx. apply nonneg_true. tauto.
Qed.

Lemma Rsum_app (l1 l2 : list R) : Rsum (l1 ++ l2) = Rsum l1 + Rsum l2.
Proof. induction l1 as [|x l1 IH]; simpl; [|rewrite IH]; lra. Qed.

(** One turn of the loop of [addAreasAndVolumes] on an object whose two
    measurements return. *)
Lemma addAreasAndVolumes_loop_step (scene : Scene) (g : bool) (o : Object)
    (rest : list PyVal) (total_area total_volume area volume : R)
    (p : Panel) :
  objectSurfaceArea scene (PyObj o) false g = Ok area ->
  objectVolume scene (PyObj o) g = Ok volume ->
  exists p',
    measure_panel_dist p' = measure_panel_dist p
    /\ addAreasAndVolumes_loop scene g (PyObj o :: rest)
         total_area total_volume p
       = addAreasAndVolumes_loop scene g rest
           (if nonneg area then total_area + area else total_area)
           (if nonneg volume then total_volume + volume else total_volume)
           p'.
Proof.
  intros Ha Hv. simpl. unfold bind, lift. rewrite Ha, Hv. simpl.
  eexists. split; [|reflexivity]. reflexivity.
Qed.

Lemma addAreasAndVolumes_loop_totals (scene : Scene) (g : bool)
    (objs : list Object) :
  forall (areas volumes : list R) (total_area total_volume : R) (p : Panel),
    Forall2 (fun o a => objectSurfaceArea scene (PyObj o) false g = Ok a)
            objs areas ->
    Forall2 (fun o v => objectVolume scene (PyObj o) g = Ok v)
            objs volumes ->
    exists p',
      measure_panel_dist p' = measure_panel_dist p
      /\ addAreasAndVolumes_loop scene g (map PyObj objs)
           total_area total_volume p
         = (p', Ok (total_area + Rsum (filter nonneg areas),
                    total_volume + Rsum (filter nonneg volumes))).
Proof.
  induction objs as [|o objs IH];
    intros areas volumes total_area total_volume p Ha Hv.
  - inversion Ha; inversion Hv; subst. simpl. exists p. split; [reflexivity|].
    unfold ret. do 3 f_equal; lra.
  - inversion Ha as [|? a ? areas' Ha1 Ha']; subst.
    inversion Hv as [|? v ? volumes' Hv1 Hv']; subst.
    simpl map.
    destruct (addAreasAndVolumes_loop_step scene g o (map PyObj objs)
                total_area total_volume a v p Ha1 Hv1) as (p1 & Hd1 & ->).
    destruct (IH areas' volumes'
                (if nonneg a then total_area + a else total_area)
                (if nonneg v then total_volume + v else total_volume)
                p1 Ha' Hv') as (p' & Hd' & ->).
    exists p'. split; [congruence|].
    simpl. do 3 f_equal.
    + destruct (nonneg a); simpl; lra.
    + destruct (nonneg v); simpl; lra.
Qed.

Lemma volume_loop_returns (mesh : Mesh) (fs : list MeshFace) :
  Forall (fun f => (3 <= List.length (face_verts f))%nat /\
                   Forall (fun i => (i < List.length (verts mesh))%nat)
                          (face_verts f)) fs ->
  forall volume, exists r, volume_loop mesh fs volume = Ok r.
Proof.
  induction fs as [|f fs IH]; intros Hwf volume.
  - eexists. reflexivity.
  - inversion Hwf as [|? ? [Hlen Hf] Hwf']; subst.
    destruct (Nat.ltb 3 (List.length (face_verts f))) eqn:E.
    + simpl. rewrite E. eexists. reflexivity.
    + apply Nat.ltb_ge in E.
      rewrite volume_loop_triangle by (assumption || lia).
      apply IH. assumption.
Qed.

Lemma mesh_guard_cases (o : Object) :
  (exists data, mesh_object o data /\
                mesh_guard (PyObj o) = Ok (Some (o, data)))
  \/ mesh_guard (PyObj o) = Ok None.
Proof.
  unfold mesh_guard, mesh_object. simpl.
  destruct (obj_type o =? "MESH") eqn:Et; [|right; reflexivity].
  apply String.eqb_eq in Et.
  destruct (obj_data o) as [data|]; [|right; reflexivity].
  left. exists data. auto.
Qed.

(** [objectSurfaceArea] returns on every object. *)
Lemma objectSurfaceArea_returns (scene : Scene) (o : Object)
    (selectedOnly globalSpace : bool) :
  exists area,
    objectSurfaceArea scene (PyObj o) selectedOnly globalSpace = Ok area.
Proof.
  unfold objectSurfaceArea.
  destruct (mesh_guard_cases o) as [(data & _ & ->)| ->];
    simpl; eexists; reflexivity.
Qed.

(** [objectVolume] returns on every object it can walk through. *)
Lemma objectVolume_returns (scene : Scene) (o : Object) (globalSpace : bool) :
  object_well_formed globalSpace o ->
  exists volume, objectVolume scene (PyObj o) globalSpace = Ok volume.
Proof.
  intros Hwf. unfold objectVolume.
  destruct (mesh_guard_cases o) as [(data & Hobj & ->)| ->]; simpl.
  - fold (working_mesh o data globalSpace).
    destruct (volume_loop_returns _ _ (Hwf data Hobj) 0) as [r ->].
    simpl. destruct r; eexists; reflexivity.
  - eexists. reflexivity.
Qed.

Lemma measurements_return (scene : Scene) (g : bool) (objs : list Object) :
  Forall (object_well_formed g) objs ->
  exists areas volumes,
    Forall2 (fun o a => objectSurfaceArea scene (PyObj o) false g = Ok a)
            objs areas
    /\ Forall2 (fun o v => objectVolume scene (PyObj o) g = Ok v)
               objs volumes.
Proof.
  induction 1 as [|o objs Ho _ (areas & volumes & Ha & Hv)].
  - exists [], []. split; constructor.
  - destruct (objectSurfaceArea_returns scene o false g) as [a Ea].
    destruct (objectVolume_returns scene o g Ho) as [v Ev].
    exists (a :: areas), (v :: volumes). split; constructor; assumption.
Qed.

(** The method after its loop: it returns [total_area]. *)
Lemma addAreasAndVolumes_returns_total_area (scene : Scene)
    (objs : list PyVal) (p p' : Panel) (total_area total_volume : R) :
  addAreasAndVolumes_loop scene (measureGlobal scene) objs 0 0 p
  = (p', Ok (total_area, total_volume)) ->
  snd (addAreasAndVolumes scene objs p) = Ok total_area.
Proof.
  intros Hloop. unfold addAreasAndVolumes, bind. rewrite Hloop.
  unfold when, ret, emit.
  destruct (Nat.ltb 1 (List.length objs)); [|reflexivity].
  destruct (nonneg total_area), (nonneg total_volume); reflexivity.
Qed.

(** C5. [addAreasAndVolumes] on objects adds the area of an object to the
    total area, and its volume to the total volume, exactly when that
    result is >= 0; objects that give the sentinel are left out of the
    totals, and the method returns (the total area) instead of raising. *)
Theorem addAreasAndVolumes_skips_unsupported :
  forall (scene : Scene) (objs : list Object) (p : Panel),
    Forall (object_well_formed (measureGlobal scene)) objs ->
    exists (areas volumes : list R),
      Forall2 (fun o a => objectSurfaceArea scene (PyObj o) false
                            (measureGlobal scene) = Ok a) objs areas
      /\ Forall2 (fun o v => objectVolume scene (PyObj o)
                               (measureGlobal scene) = Ok v) objs volumes
      /\ totals scene objs p
         = Ok (Rsum (filter nonneg areas), Rsum (filter nonneg volumes))
      /\ snd (addAreasAndVolumes scene (map PyObj objs) p)
         = Ok (Rsum (filter nonneg areas)).
Proof.
  intros scene objs p Hwf.
  destruct (measurements_return scene (measureGlobal scene) objs Hwf)
    as (areas & volumes & Ha & Hv).
  exists areas, volumes. split; [exact Ha|]. split; [exact Hv|].
  destruct (addAreasAndVolumes_loop_totals scene (measureGlobal scene) objs
              areas volumes 0 0 p Ha Hv) as (p' & _ & Hloop).
  rewrite !Rplus_0_l in Hloop.
  split.
  - unfold totals. rewrite Hloop. reflexivity.
  - eapply addAreasAndVolumes_returns_total_area. exact Hloop.
Qed.

Lemma totals_of_measurements (scene : Scene) (objs : list Object)
    (areas volumes : list R) (p : Panel) :
  Forall2 (fun o a => objectSurfaceArea scene (PyObj o) false
                        (measureGlobal scene) = Ok a) objs areas ->
  Forall2 (fun o v => objectVolume scene (PyObj o)
                        (measureGlobal scene) = Ok v) objs volumes ->
  totals scene objs p
  = Ok (Rsum (filter nonneg areas), Rsum (filter nonneg volumes)).
Proof.
  intros Ha Hv.
  destruct (addAreasAndVolumes_loop_totals scene (measureGlobal scene) objs
              areas volumes 0 0 p Ha Hv) as (p' & _ & Hloop).
  rewrite !Rplus_0_l in Hloop. unfold totals. rewrite Hloop. reflexivity.
Qed.

(** An object without data gives the sentinel for both measurements. *)
Lemma no_data_unsupported (scene : Scene) (u : Object) (g : bool) :
  obj_data u = None ->
  objectSurfaceArea scene (PyObj u) false g = Ok (-1)
  /\ objectVolume scene (PyObj u) g = Ok (-1).
Proof.
  intros Hd. unfold objectSurfaceArea, objectVolume, mesh_guard. simpl.
  rewrite Hd. destruct (obj_type u =? "MESH"); split; reflexivity.
Qed.

(** C10. The total area and the total volume [addAreasAndVolumes]
    accumulates are never negative; an object whose signed volume is
    negative adds nothing to the total volume, exactly like an object that
    gives the sentinel, and like its absence. *)
Theorem totals_never_negative :
  forall (scene : Scene) (objs : list Object) (p : Panel),
    Forall (object_well_formed (measureGlobal scene)) objs ->
    (exists total_area total_volume,
        totals scene objs p = Ok (total_area, total_volume)
        /\ 0 <= total_area /\ 0 <= total_volume)
    /\ (forall (before after : list Object) (o u : Object) (v : R),
          objs = (before ++ o :: after)%list ->
          objectVolume scene (PyObj o) (measureGlobal scene) = Ok v ->
          v < 0 ->
          obj_data u = None ->
          exists total_area total_area' total_volume,
            totals scene (before ++ o :: after) p
            = Ok (total_area, total_volume)
            /\ totals scene (before ++ u :: after) p
               = Ok (total_area', total_volume)
            /\ totals scene (before ++ after) p
               = Ok (total_area', total_volume)).
Proof.
  intros scene objs p Hwf. split.
  - destruct (measurements_return scene (measureGlobal scene) objs Hwf)
      as (areas & volumes & Ha & Hv).
    exists (Rsum (filter nonneg areas)), (Rsum (filter nonneg volumes)).
    split; [apply totals_of_measurements; assumption|].
    split; apply Rsum_filter_nonneg.
  - intros before after o u v -> Hvol Hneg Hu.
    apply Forall_app in Hwf. destruct Hwf as [Hb Hoa].
    inversion Hoa as [|? ? _ Hafter]; subst.
    destruct (measurements_return scene _ before Hb)
      as (ab & vb & Hab & Hvb).
    destruct (measurements_return scene _ after Hafter)
      as (aa & va & Haa & Hva).
    destruct (objectSurfaceArea_returns scene o false (measureGlobal scene))
      as [ao Hao].
    destruct (no_data_unsupported scene u (measureGlobal scene) Hu)
      as [Hau Hvu].
    exists (Rsum (filter nonneg (ab ++ ao :: aa))),
           (Rsum (filter nonneg ab ++ filter nonneg aa)),
           (Rsum (filter nonneg vb ++ filter nonneg va)).
    assert (Hm1 : nonneg (-1) = false) by (apply nonneg_false; lra).
    repeat split.
    + rewrite (totals_of_measurements scene _ (ab ++ ao :: aa)
                 (vb ++ v :: va) p).
      * rewrite (filter_app nonneg vb). simpl.
        rewrite (nonneg_false v Hneg). reflexivity.
      * apply Forall2_app; [assumption|constructor; assumption].
      * apply Forall2_app; [assumption|constructor; assumption].
    + rewrite (totals_of_measurements scene _ (ab ++ -1 :: aa)
                 (vb ++ -1 :: va) p).
      * rewrite !filter_app. simpl. rewrite Hm1. reflexivity.
      * apply Forall2_app; [assumption|constructor; assumption].
      * apply Forall2_app; [assumption|constructor; assumption].
    + rewrite (totals_of_measurements scene _ (ab ++ aa) (vb ++ va) p).
      * rewrite !filter_app. reflexivity.
      * apply Forall2_app; assumption.
      * apply Forall2_app; assumption.
Qed.

(** ** The dispatcher *)

(** Object mode with two selected objects: the distance is stored and its
    rows are laid out, then reading [mesh_objects] raises. *)
Lemma draw_two_objects (context : Context) (obj1 obj2 : Object) (p : Panel) :
  mode context = "OBJECT" ->
  selected_objects context = [obj1; obj2] ->
  draw context p
  = (mkPanel (distance (obj_location obj1) (obj_location obj2))
       (layout p ++
        [Row; Prop_ "measure_panel_dist" false;
         Row; Label [Str (obj_name obj1)] (Some "OBJECT_DATA");
         Label [Str ""] (Some "ARROW_LEFTRIGHT");
         Label [Str (obj_name obj2)] (Some "OBJECT_DATA")]),
     Raise UnboundLocalError).
Proof.
  intros Hmode Hsel. unfold draw, draw_object. rewrite Hmode, Hsel. simpl.
  unfold bind, lift, set_dist, dist_row, emit, bind. simpl.
  rewrite <- !app_assoc. reflexivity.
Qed.

(** Object mode with more than two selected objects, one of them a mesh
    with data: [addAreasAndVolumes] receives the list [mesh_objects] as its
    one positional argument and raises on reading its [type]. *)
Lemma draw_many_objects (context : Context) (p : Panel) :
  mode context = "OBJECT" ->
  (2 < List.length (selected_objects context))%nat ->
  Exists (fun o => exists data, mesh_object o data)
         (selected_objects context) ->
  draw context p = (p, Raise AttributeError).
Proof.
  intros Hmode Hlen Hmesh. unfold draw, draw_object. rewrite Hmode. simpl.
  apply Nat.ltb_lt in Hlen. rewrite Hlen.
  set (mesh_objects := filter _ (selected_objects context)).
  assert (Hne : (0 < List.length mesh_objects)%nat).
  { apply Exists_exists in Hmesh. destruct Hmesh as (o & Hin & data & Ht & Hd).
    assert (Hin' : In o mesh_objects).
    { apply filter_In. split; [exact Hin|].
      unfold has_data. rewrite Ht, Hd. reflexivity. }
    destruct mesh_objects; [destruct Hin' | simpl; lia]. }
  assert (Hb := Hne). apply Nat.ltb_lt in Hb. rewrite Hb. simpl.
  unfold addAreasAndVolumes, bind. simpl.
  unfold bind, lift, objectSurfaceArea, mesh_guard. simpl.
  destruct mesh_objects; [simpl in Hne; lia | reflexivity].
Qed.

(** Mesh edit mode with two selected vertices, in the three cases: Local
    space, another space with an invertible matrix, a matrix without
    inverse. *)
Lemma draw_two_vertices (context : Context) (obj : Object) (mesh : Mesh)
    (v0 v1 : MeshVertex) (p : Panel) :
  mode context = "EDIT_MESH" ->
  active_object context = Some obj ->
  mesh_object obj mesh ->
  filter vert_selected (verts mesh) = [v0; v1] ->
  draw context p
  = match mat_invert (obj_matrix obj) with
    | None => (p, Raise ValueError)
    | Some _ =>
        if measureLocal (scene context)
        then (mkPanel (distance (co v0) (co v1))
                (layout p ++
                 [Row; Prop_ "measure_panel_dist" false;
                  Row; Label [Str ""] (Some "VERTEXSEL");
                  Label [Str ""] (Some "ARROW_LEFTRIGHT");
                  Label [Str ""] (Some "VERTEXSEL");
                  Row; Operator "reenter_editmode"
                         "Update selection & distance";
                  Row; Prop_ "measure_panel_transform" true]),
              Ok tt)
        else (p, Raise AttributeError)
    end.
Proof.
  intros Hmode Hact [Ht Hd] Hsel.
  unfold draw. rewrite Hmode, Hact, Ht, Hd. simpl.
  unfold draw_edit_mesh, invert, bind, lift.
  destruct (mat_invert (obj_matrix obj)); [|reflexivity].
  rewrite Hsel.
  destruct (measureLocal (scene context)); [|reflexivity].
  simpl. unfold bind, set_dist, dist_row, reenter_row, transform_row, emit,
    bind. simpl.
  rewrite <- !app_assoc. reflexivity.
Qed.

(** C6, on the code.  Object mode, two objects selected at (0,0,0) and
    (3,4,0): the panel stores the distance 5 and lays out the distance
    rows, then raises UnboundLocalError; no area and no volume is
    displayed. *)
Theorem draw_two_objects_raises :
  forall (mat1 mat2 : Matrix) (p : Panel),
    draw (two_objects_context mat1 mat2) p
    = (mkPanel 5
         (layout p ++
          [Row; Prop_ "measure_panel_dist" false;
           Row; Label [Str "A"] (Some "OBJECT_DATA");
           Label [Str ""] (Some "ARROW_LEFTRIGHT");
           Label [Str "B"] (Some "OBJECT_DATA")]),
       Raise UnboundLocalError).
Proof.
  intros mat1 mat2 p.
  rewrite (draw_two_objects _ (cube_at "A" (mkVector 0 0 0) mat1)
             (cube_at "B" (mkVector 3 4 0) mat2)) by reflexivity.
  simpl. do 2 f_equal.
  unfold distance, vec_length, vec_sub. simpl.
  replace ((0 - 3) * (0 - 3) + (0 - 4) * (0 - 4) + (0 - 0) * (0 - 0))
    with (5 * 5) by ring.
  apply sqrt_square. lra.
Qed.

(** * Further properties *)

(** ** [objectVolume] and [objectSurfaceArea] *)

Lemma index_out_of_range {A} (l : list A) (i : nat) :
  (List.length l <= i)%nat -> index l i = Raise IndexError.
Proof.
  intros H. unfold index. apply nth_error_None in H. rewrite H. reflexivity.
Qed.

Lemma index_cases {A} (l : list A) (i : nat) :
  (exists a, index l i = Ok a) \/ index l i = Raise IndexError.
Proof.
  unfold index. destruct (nth_error l i); [left; eexists|right]; reflexivity.
Qed.

Lemma volume_loop_unreadable (mesh : Mesh) (f : MeshFace)
    (rest : list MeshFace) (volume : R) :
  unreadable_face mesh f ->
  volume_loop mesh (f :: rest) volume = Raise IndexError.
Proof.
  intros [Hle Hbad]. simpl.
  replace (Nat.ltb 3 (List.length (face_verts f))) with false
    by (symmetry; apply Nat.ltb_ge; exact Hle).
  destruct (face_verts f) as [|i0 [|i1 [|i2 [|? ?]]]]; simpl in *;
    [reflexivity | | | | lia].
  - destruct (index_cases (verts mesh) i0) as [[? ->]| ->]; reflexivity.
  - destruct (index_cases (verts mesh) i0) as [[? ->]| ->]; simpl;
      [|reflexivity].
    destruct (index_cases (verts mesh) i1) as [[? ->]| ->]; reflexivity.
  - destruct Hbad as [Hlt|Hex]; [lia|].
    destruct (index_cases (verts mesh) i0) as [[? E0]|E0]; rewrite E0; simpl;
      [|reflexivity].
    destruct (index_cases (verts mesh) i1) as [[? E1]|E1]; rewrite E1; simpl;
      [|reflexivity].
    destruct (index_cases (verts mesh) i2) as [[? E2]|E2]; rewrite E2; simpl;
      [|reflexivity].
    exfalso.
    inversion Hex as [? ? H|? ? Hex1]; subst;
      [rewrite index_out_of_range in E0 by exact H; discriminate|].
    inversion Hex1 as [? ? H|? ? Hex2]; subst;
      [rewrite index_out_of_range in E1 by exact H; discriminate|].
    inversion Hex2 as [? ? H|? ? Hex3]; subst;
      [rewrite index_out_of_range in E2 by exact H; discriminate|].
    inversion Hex3.
Qed.

(** X1.  Bounds.  When, after triangles it can read, the loop of [objectVolume]
    meets a face with fewer than three indices, or a triangle with an index
    beyond the vertex list, the method raises IndexError; there is no
    sentinel for this case. *)
Theorem objectVolume_index_error :
  forall (scene : Scene) (o : Object) (data : Mesh) (globalSpace : bool)
         (good rest : list MeshFace) (f : MeshFace),
    mesh_object o data ->
    faces (working_mesh o data globalSpace) = (good ++ f :: rest)%list ->
    Forall (fun t => List.length (face_verts t) = 3%nat /\
                     Forall (fun i =>
                               (i < List.length
                                      (verts (working_mesh o data
                                                globalSpace)))%nat)
                            (face_verts t)) good ->
    unreadable_face (working_mesh o data globalSpace) f ->
    objectVolume scene (PyObj o) globalSpace = Raise IndexError.
Proof.
  intros scene o data globalSpace good rest f Hobj Hfaces Hgood Hbad.
  unfold objectVolume. rewrite (mesh_guard_object o data Hobj). simpl.
  fold (working_mesh o data globalSpace). rewrite Hfaces.
  assert (Hloop : forall volume,
             volume_loop (working_mesh o data globalSpace)
               (good ++ f :: rest) volume = Raise IndexError).
  { clear Hfaces. induction Hgood as [|t good [H3 Hin] _ IH]; intros volume.
    - apply volume_loop_unreadable. exact Hbad.
    - simpl app. rewrite volume_loop_triangle by assumption. apply IH. }
  rewrite Hloop. reflexivity.
Qed.

Lemma triple_swap (a b c : Vector) : triple a c b = - triple a b c.
Proof. unfold triple, dot, cross. simpl. ring. Qed.

Lemma flip_face_triple (m : Mesh) (f : MeshFace) :
  List.length (face_verts f) = 3%nat ->
  face_triple (flip_mesh m) (flip_face f) = - face_triple m f.
Proof.
  intros H3. unfold face_triple, flip_face.
  destruct (face_verts f) as [|i0 [|i1 [|i2 [|? ?]]]]; try discriminate.
  simpl. unfold vertex_co. simpl. apply triple_swap.
Qed.

Lemma flip_mesh_triangles (m : Mesh) : triangles m -> triangles (flip_mesh m).
Proof.
  unfold triangles. simpl. intros H. apply Forall_map.
  eapply Forall_impl; [|exact H]. intros f H3. cbv beta in H3.
  unfold flip_face.
  destruct (face_verts f) as [|i0 [|i1 [|i2 [|? ?]]]]; try discriminate.
  reflexivity.
Qed.

Lemma flip_mesh_well_formed (m : Mesh) :
  triangles m -> well_formed m -> well_formed (flip_mesh m).
Proof.
  unfold triangles, well_formed. simpl. intros Ht Hwf. apply Forall_map.
  rewrite Forall_forall in *. intros f Hf.
  specialize (Ht f Hf). destruct (Hwf f Hf) as [_ Hin]. unfold flip_face.
  destruct (face_verts f) as [|i0 [|i1 [|i2 [|? ?]]]]; try discriminate.
  simpl. split; [lia|].
  inversion Hin as [|? ? H0 Hin1]; subst.
  inversion Hin1 as [|? ? H1 Hin2]; subst.
  inversion Hin2 as [|? ? H2 _]; subst.
  repeat constructor; assumption.
Qed.

Lemma Rsum_map_opp {A} (g h : A -> R) (l : list A) :
  Forall (fun x => g x = - h x) l ->
  Rsum (map g l) = - Rsum (map h l).
Proof.
  induction 1 as [|x l Hx _ IH]; simpl; [lra|]. rewrite Hx, IH. lra.
Qed.

(** X2.  Winding.  In local coordinates, winding every triangle of a mesh the
    other way round negates the volume [objectVolume] returns. *)
Theorem objectVolume_winding :
  forall (scene : Scene) (o o' : Object) (data : Mesh),
    mesh_object o data ->
    mesh_object o' (flip_mesh data) ->
    triangles data ->
    well_formed data ->
    exists v,
      objectVolume scene (PyObj o) false = Ok v
      /\ objectVolume scene (PyObj o') false = Ok (- v).
Proof.
  intros scene o o' data Hobj Hobj' Htri Hwf.
  eexists. split.
  - apply (objectVolume_triangles_sum scene o data false Hobj Htri Hwf).
  - rewrite (objectVolume_triangles_sum scene o' (flip_mesh data) false Hobj'
               (flip_mesh_triangles _ Htri)
               (flip_mesh_well_formed _ Htri Hwf)).
    unfold working_mesh. simpl faces. rewrite map_map.
    rewrite (Rsum_map_opp _ (face_triple data)).
    + f_equal. lra.
    + eapply Forall_impl; [|exact Htri].
      intros f H3. cbv beta in H3. apply flip_face_triple. exact H3.
Qed.

(** X3.  Parts.  In local coordinates the volume of a triangle mesh whose face
    list is the concatenation of two lists is the sum of the volumes of
    the two meshes over the same vertices. *)
Theorem objectVolume_face_lists_add :
  forall (scene : Scene) (o1 o2 o12 : Object) (vs : list MeshVertex)
         (fs1 fs2 : list MeshFace),
    mesh_object o1 (mkMesh vs fs1) ->
    mesh_object o2 (mkMesh vs fs2) ->
    mesh_object o12 (mkMesh vs (fs1 ++ fs2)) ->
    triangles (mkMesh vs (fs1 ++ fs2)) ->
    well_formed (mkMesh vs (fs1 ++ fs2)) ->
    exists v1 v2,
      objectVolume scene (PyObj o1) false = Ok v1
      /\ objectVolume scene (PyObj o2) false = Ok v2
      /\ objectVolume scene (PyObj o12) false = Ok (v1 + v2).
Proof.
  intros scene o1 o2 o12 vs fs1 fs2 H1 H2 H12 Htri Hwf.
  unfold triangles, well_formed in *. simpl in *.
  apply Forall_app in Htri. destruct Htri as [Ht1 Ht2].
  apply Forall_app in Hwf. destruct Hwf as [Hw1 Hw2].
  do 2 eexists. split; [|split].
  - apply (objectVolume_triangles_sum scene o1 _ false H1); assumption.
  - apply (objectVolume_triangles_sum scene o2 _ false H2); assumption.
  - rewrite (objectVolume_triangles_sum scene o12 _ false H12).
    + unfold working_mesh. simpl faces. rewrite map_app, Rsum_app.
      f_equal. unfold face_triple, vertex_co. simpl. lra.
    + unfold triangles. simpl. apply Forall_app. split; assumption.
    + unfold well_formed. simpl. apply Forall_app. split; assumption.
Qed.

(** X4.  Nothing to count.  A mesh object none of whose faces is counted has
    area 0, and a mesh object without faces has volume 0: both results are
    measurements, not the sentinel. *)
Theorem empty_measures_zero :
  forall (scene : Scene) (o : Object) (data : Mesh)
         (selectedOnly globalSpace : bool),
    mesh_object o data ->
    (counted_faces selectedOnly (working_mesh o data globalSpace) = [] ->
     objectSurfaceArea scene (PyObj o) selectedOnly globalSpace = Ok 0)
    /\ (faces (working_mesh o data globalSpace) = [] ->
        objectVolume scene (PyObj o) globalSpace = Ok 0).
Proof.
  intros scene o data selectedOnly globalSpace Hobj. split.
  - intros Hnone. rewrite (objectSurfaceArea_mesh _ _ data _ _ Hobj).
    rewrite Hnone. simpl. f_equal. lra.
  - intros Hnone. unfold objectVolume.
    rewrite (mesh_guard_object o data Hobj). simpl.
    fold (working_mesh o data globalSpace). rewrite Hnone. simpl.
    f_equal. lra.
Qed.

Lemma Rsum_filter_le {A} (g : A -> R) (keep : A -> bool) (l : list A) :
  Forall (fun x => 0 <= g x) l ->
  Rsum (map g (filter keep l)) <= Rsum (map g l).
Proof.
  induction 1 as [|x l Hx _ IH]; simpl; [lra|].
  destruct (keep x); simpl; lra.
Qed.

(** X5.  Selection.  With face areas that are not negative, the area of the
    selected faces is at most the area of all faces of the same object. *)
Theorem selected_area_at_most_total :
  forall (scene : Scene) (o : Object) (data : Mesh) (globalSpace : bool),
    mesh_object o data ->
    Forall (fun f => 0 <= face_area f)
           (faces (working_mesh o data globalSpace)) ->
    exists selected_area total_area,
      objectSurfaceArea scene (PyObj o) true globalSpace = Ok selected_area
      /\ objectSurfaceArea scene (PyObj o) false globalSpace = Ok total_area
      /\ 0 <= selected_area <= total_area.
Proof.
  intros scene o data globalSpace Hobj Hareas.
  do 2 eexists. split; [|split].
  - apply (objectSurfaceArea_mesh _ _ data _ _ Hobj).
  - apply (objectSurfaceArea_mesh _ _ data _ _ Hobj).
  - unfold counted_faces.
    assert (Hsq : 0 <= scale_length (unit_settings scene) ^ 2)
      by apply pow2_ge_0.
    assert (Hle := Rsum_filter_le face_area face_selected _ Hareas).
    assert (H0 : 0 <= Rsum (map face_area
                              (filter face_selected
                                 (faces (working_mesh o data globalSpace))))).
    { apply Rsum_nonneg. apply Forall_map. apply Forall_forall.
      intros f Hf. apply filter_In in Hf. rewrite Forall_forall in Hareas.
      apply Hareas. tauto. }
    split; [apply Rmult_le_pos; assumption|].
    apply Rmult_le_compat_r; assumption.
Qed.

(** ** The aggregations *)

Lemma nonneg_of_le (x : R) : 0 <= x -> nonneg x = true.
Proof.
  intros H. unfold nonneg. destruct (Rge_dec x 0); [reflexivity | lra].
Qed.

(** The loop of [addAreasAndVolumes] with the rows it lays out. *)
Lemma addAreasAndVolumes_loop_run (scene : Scene) (g : bool)
    (objs : list Object) :
  forall (areas volumes : list R) (total_area total_volume : R) (p : Panel),
    Forall2 (fun o a => objectSurfaceArea scene (PyObj o) false g = Ok a)
            objs areas ->
    Forall2 (fun o v => objectVolume scene (PyObj o) g = Ok v)
            objs volumes ->
    addAreasAndVolumes_loop scene g (map PyObj objs)
      total_area total_volume p
    = (mkPanel (measure_panel_dist p)
         (layout p ++ objects_rows scene objs areas volumes),
       Ok (total_area + Rsum (filter nonneg areas),
           total_volume + Rsum (filter nonneg volumes))).
Proof.
  induction objs as [|o objs IH];
    intros areas volumes total_area total_volume p Ha Hv.
  - inversion Ha; inversion Hv; subst. simpl. unfold ret.
    rewrite app_nil_r. destruct p. simpl. do 3 f_equal; lra.
  - inversion Ha as [|? a ? areas' Ha1 Ha']; subst.
    inversion Hv as [|? v ? volumes' Hv1 Hv']; subst.
    simpl. unfold bind at 1, lift at 1. rewrite Ha1.
    unfold bind, lift, emit. simpl. rewrite Hv1. simpl.
    rewrite (IH areas' volumes' _ _ _ Ha' Hv'). simpl.
    f_equal.
    + f_equal. rewrite <- !app_assoc. reflexivity.
    + do 2 f_equal.
      * destruct (nonneg a); simpl; lra.
      * destruct (nonneg v); simpl; lra.
Qed.

(** The whole method, given what each object measures. *)
Lemma addAreasAndVolumes_run (scene : Scene) (objs : list Object)
    (areas volumes : list R) (p : Panel) :
  Forall2 (fun o a => objectSurfaceArea scene (PyObj o) false
                        (measureGlobal scene) = Ok a) objs areas ->
  Forall2 (fun o v => objectVolume scene (PyObj o)
                        (measureGlobal scene) = Ok v) objs volumes ->
  addAreasAndVolumes scene (map PyObj objs) p
  = (mkPanel (measure_panel_dist p)
       (layout p ++ objects_rows scene objs areas volumes ++
        (if Nat.ltb 1 (List.length objs)
         then total_rows scene (Rsum (filter nonneg areas))
                (Rsum (filter nonneg volumes))
         else [])),
     Ok (Rsum (filter nonneg areas))).
Proof.
  intros Ha Hv. unfold addAreasAndVolumes, bind.
  rewrite (addAreasAndVolumes_loop_run scene _ objs areas volumes 0 0 p Ha Hv).
  rewrite !Rplus_0_l, length_map.
  destruct (Nat.ltb 1 (List.length objs)); simpl.
  - rewrite (nonneg_of_le _ (Rsum_filter_nonneg areas)).
    rewrite (nonneg_of_le _ (Rsum_filter_nonneg volumes)).
    simpl. unfold bind, emit, ret. simpl.
    rewrite <- !app_assoc. reflexivity.
  - unfold ret. rewrite app_nil_r. reflexivity.
Qed.

(** X6.  Display.  On objects with readable meshes [addAreasAndVolumes] lays
    out, after what is there, an area row and a volume row per object in
    order and, exactly when there is more than one object, the two rows of
    the totals (the tests [total >= 0] before them never fail); it leaves
    the stored distance as it is and returns the total area. *)
Theorem addAreasAndVolumes_layout :
  forall (scene : Scene) (objs : list Object) (p : Panel),
    Forall (object_well_formed (measureGlobal scene)) objs ->
    exists areas volumes : list R,
      Forall2 (fun o a => objectSurfaceArea scene (PyObj o) false
                            (measureGlobal scene) = Ok a) objs areas
      /\ Forall2 (fun o v => objectVolume scene (PyObj o)
                               (measureGlobal scene) = Ok v) objs volumes
      /\ addAreasAndVolumes scene (map PyObj objs) p
         = (mkPanel (measure_panel_dist p)
              (layout p ++ objects_rows scene objs areas volumes ++
               (if Nat.ltb 1 (List.length objs)
                then total_rows scene (Rsum (filter nonneg areas))
                       (Rsum (filter nonneg volumes))
                else [])),
            Ok (Rsum (filter nonneg areas))).
Proof.
  intros scene objs p Hwf.
  destruct (measurements_return scene (measureGlobal scene) objs Hwf)
    as (areas & volumes & Ha & Hv).
  exists areas, volumes. split; [exact Ha|]. split; [exact Hv|].
  apply addAreasAndVolumes_run; assumption.
Qed.

(** X7.  Wrong arguments.  [addAreasAndVolumes] raises AttributeError on a
    first argument that is not an object: on None and on an empty list
    after one empty row (both measure as -1, then [o.name] fails), on a
    list with elements at once, with nothing laid out. *)
Theorem addAreasAndVolumes_not_an_object :
  forall (scene : Scene) (rest : list PyVal) (p : Panel),
    addAreasAndVolumes scene (PyNone :: rest) p
    = (mkPanel (measure_panel_dist p) (layout p ++ [Row]),
       Raise AttributeError)
    /\ addAreasAndVolumes scene (PyList [] :: rest) p
       = (mkPanel (measure_panel_dist p) (layout p ++ [Row]),
          Raise AttributeError)
    /\ (forall (o : Object) (l : list Object),
          addAreasAndVolumes scene (PyList (o :: l) :: rest) p
          = (p, Raise AttributeError)).
Proof.
  intros scene rest p. repeat split.
Qed.

(** The loop of [addObjectAreas] returns on objects. *)
Lemma addObjectAreas_loop_run (scene : Scene) (g : bool)
    (objs : list Object) :
  forall (areas : list R) (total_area : R) (p : Panel),
    Forall2 (fun o a => objectSurfaceArea scene (PyObj o) false g = Ok a)
            objs areas ->
    exists p',
      addObjectAreas_loop scene g (map PyObj objs) total_area p
      = (p', Ok (total_area + Rsum (filter nonneg areas))).
Proof.
  induction objs as [|o objs IH]; intros areas total_area p Ha.
  - inversion Ha; subst. exists p. simpl. unfold ret. do 2 f_equal. lra.
  - inversion Ha as [|? a ? areas' Ha1 Ha']; subst.
    simpl. unfold bind at 1, lift at 1. rewrite Ha1.
    unfold bind, lift, emit. simpl.
    destruct (IH areas' (if nonneg a then total_area + a else total_area)
                (mkPanel (measure_panel_dist p)
                   ((layout p ++ [Row]) ++
                    [Label [Str (obj_name o ++ " S.A.: ");
                            Rounded a PRECISION; Str (units scene 2)]
                       (Some "OBJECT_DATA")])) Ha') as [p' Hrun].
    exists p'. rewrite Hrun. do 2 f_equal.
    destruct (nonneg a); simpl; lra.
Qed.

Lemma addObjectVolumes_loop_run (scene : Scene) (g : bool)
    (objs : list Object) :
  forall (volumes : list R) (total_volume : R) (p : Panel),
    Forall2 (fun o v => objectVolume scene (PyObj o) g = Ok v)
            objs volumes ->
    exists p',
      addObjectVolumes_loop scene g (map PyObj objs) total_volume p
      = (p', Ok (total_volume + Rsum (filter nonneg volumes))).
Proof.
  induction objs as [|o objs IH]; intros volumes total_volume p Hv.
  - inversion Hv; subst. exists p. simpl. unfold ret. do 2 f_equal. lra.
  - inversion Hv as [|? v ? volumes' Hv1 Hv']; subst.
    simpl. unfold bind at 1, lift at 1. rewrite Hv1.
    unfold bind, lift, emit. simpl.
    destruct (IH volumes'
                (if nonneg v then total_volume + v else total_volume)
                (mkPanel (measure_panel_dist p)
                   ((layout p ++ [Row]) ++
                    [Label [Str (obj_name o ++ " Vol.: ");
                            Rounded v PRECISION; Str (units scene 3)]
                       (Some "OBJECT_DATA")])) Hv') as [p' Hrun].
    exists p'. rewrite Hrun. do 2 f_equal.
    destruct (nonneg v); simpl; lra.
Qed.

Lemma areas_return (scene : Scene) (g : bool) (objs : list Object) :
  exists areas,
    Forall2 (fun o a => objectSurfaceArea scene (PyObj o) false g = Ok a)
            objs areas.
Proof.
  induction objs as [|o objs [areas Ha]].
  - exists []. constructor.
  - destruct (objectSurfaceArea_returns scene o false g) as [a Ea].
    exists (a :: areas). constructor; assumption.
Qed.

Lemma addObjectAreas_returns (scene : Scene) (objs : list Object)
    (areas : list R) (p : Panel) :
  Forall2 (fun o a => objectSurfaceArea scene (PyObj o) false
                        (measureGlobal scene) = Ok a) objs areas ->
  snd (addObjectAreas scene (map PyObj objs) p)
  = Ok (Rsum (filter nonneg areas)).
Proof.
  intros Ha. unfold addObjectAreas, bind.
  destruct (addObjectAreas_loop_run scene _ objs areas 0 p Ha) as [p' ->].
  rewrite Rplus_0_l. unfold when, ret, emit.
  destruct (Nat.ltb 1 (List.length (map PyObj objs))
            && nonneg (Rsum (filter nonneg areas))); reflexivity.
Qed.

Lemma addObjectVolumes_returns (scene : Scene) (objs : list Object)
    (volumes : list R) (p : Panel) :
  Forall2 (fun o v => objectVolume scene (PyObj o)
                        (measureGlobal scene) = Ok v) objs volumes ->
  snd (addObjectVolumes scene (map PyObj objs) p)
  = Ok (Rsum (filter nonneg volumes)).
Proof.
  intros Hv. unfold addObjectVolumes, bind.
  destruct (addObjectVolumes_loop_run scene _ objs volumes 0 p Hv) as [p' ->].
  rewrite Rplus_0_l. unfold when, ret, emit.
  destruct (Nat.ltb 1 (List.length (map PyObj objs))
            && nonneg (Rsum (filter nonneg volumes))); reflexivity.
Qed.

(** X9.  Agreement.  On objects with readable meshes the combined method
    accumulates the totals the two single-measure methods return:
    [addObjectAreas] returns its total area, which is also what it returns
    itself, and [addObjectVolumes] returns its total volume. *)
Theorem aggregations_agree :
  forall (scene : Scene) (objs : list Object) (p : Panel),
    Forall (object_well_formed (measureGlobal scene)) objs ->
    exists total_area total_volume,
      totals scene objs p = Ok (total_area, total_volume)
      /\ snd (addAreasAndVolumes scene (map PyObj objs) p) = Ok total_area
      /\ snd (addObjectAreas scene (map PyObj objs) p) = Ok total_area
      /\ snd (addObjectVolumes scene (map PyObj objs) p) = Ok total_volume.
Proof.
  intros scene objs p Hwf.
  destruct (measurements_return scene (measureGlobal scene) objs Hwf)
    as (areas & volumes & Ha & Hv).
  exists (Rsum (filter nonneg areas)), (Rsum (filter nonneg volumes)).
  destruct (addAreasAndVolumes_loop_totals scene (measureGlobal scene) objs
              areas volumes 0 0 p Ha Hv) as (p' & _ & Hloop).
  rewrite !Rplus_0_l in Hloop.
  split; [apply totals_of_measurements; assumption|].
  split; [eapply addAreasAndVolumes_returns_total_area; exact Hloop|].
  split; [apply addObjectAreas_returns; exact Ha|].
  apply addObjectVolumes_returns; exact Hv.
Qed.

(** X10.  Areas alone.  [addObjectAreas] returns on all objects, whatever their
    meshes are, a total that is not negative. *)
Theorem addObjectAreas_total :
  forall (scene : Scene) (objs : list Object) (p : Panel),
    exists total_area,
      snd (addObjectAreas scene (map PyObj objs) p) = Ok total_area
      /\ 0 <= total_area.
Proof.
  intros scene objs p.
  destruct (areas_return scene (measureGlobal scene) objs) as [areas Ha].
  exists (Rsum (filter nonneg areas)).
  split; [apply addObjectAreas_returns; exact Ha|].
  apply Rsum_filter_nonneg.
Qed.

(** The loop of [addAreasAndVolumes] up to an object whose volume
    raises. *)
Lemma addAreasAndVolumes_loop_abort (scene : Scene) (g : bool)
    (o : Object) (after : list Object) (a : R) (e : exn)
    (before : list Object) :
  objectSurfaceArea scene (PyObj o) false g = Ok a ->
  objectVolume scene (PyObj o) g = Raise e ->
  forall (areas volumes : list R) (total_area total_volume : R) (p : Panel),
    Forall2 (fun o a => objectSurfaceArea scene (PyObj o) false g = Ok a)
            before areas ->
    Forall2 (fun o v => objectVolume scene (PyObj o) g = Ok v)
            before volumes ->
    addAreasAndVolumes_loop scene g (map PyObj (before ++ o :: after))
      total_area total_volume p
    = (mkPanel (measure_panel_dist p)
         (layout p ++ objects_rows scene before areas volumes ++
          [Row; Label [Str (obj_name o ++ " S.A.: "); Rounded a PRECISION;
                       Str (units scene 2)] (Some "OBJECT_DATA")]),
       Raise e).
Proof.
  intros Hoa Hov.
  induction before as [|b before IH];
    intros areas volumes total_area total_volume p Ha Hv.
  - inversion Ha; inversion Hv; subst. simpl.
    unfold bind at 1, lift at 1. rewrite Hoa.
    unfold bind, lift, emit. simpl. rewrite Hov. simpl.
    rewrite <- !app_assoc. reflexivity.
  - inversion Ha as [|? a1 ? areas' Ha1 Ha']; subst.
    inversion Hv as [|? v1 ? volumes' Hv1 Hv']; subst.
    simpl. unfold bind at 1, lift at 1. rewrite Ha1.
    unfold bind, lift, emit. simpl. rewrite Hv1. simpl.
    rewrite (IH areas' volumes' _ _ _ Ha' Hv'). simpl.
    rewrite <- !app_assoc. reflexivity.
Qed.

(** X8.  Abort.  When [objectVolume] raises on one object, [addAreasAndVolumes]
    raises the same exception: the objects before it and the area of that
    object are laid out, the objects after it and the totals are not. *)
Theorem addAreasAndVolumes_aborts :
  forall (scene : Scene) (before after : list Object) (o : Object)
         (e : exn) (p : Panel),
    Forall (object_well_formed (measureGlobal scene)) before ->
    objectVolume scene (PyObj o) (measureGlobal scene) = Raise e ->
    exists (areas volumes : list R) (a : R),
      Forall2 (fun o a => objectSurfaceArea scene (PyObj o) false
                            (measureGlobal scene) = Ok a) before areas
      /\ Forall2 (fun o v => objectVolume scene (PyObj o)
                               (measureGlobal scene) = Ok v) before volumes
      /\ objectSurfaceArea scene (PyObj o) false (measureGlobal scene)
         = Ok a
      /\ addAreasAndVolumes scene (map PyObj (before ++ o :: after)) p
         = (mkPanel (measure_panel_dist p)
              (layout p ++ objects_rows scene before areas volumes ++
               [Row;
                Label [Str (obj_name o ++ " S.A.: "); Rounded a PRECISION;
                       Str (units scene 2)] (Some "OBJECT_DATA")]),
            Raise e).
Proof.
  intros scene before after o e p Hwf Hraise.
  destruct (measurements_return scene (measureGlobal scene) before Hwf)
    as (areas & volumes & Ha & Hv).
  destruct (objectSurfaceArea_returns scene o false (measureGlobal scene))
    as [a Hoa].
  exists areas, volumes, a.
  split; [exact Ha|]. split; [exact Hv|]. split; [exact Hoa|].
  unfold addAreasAndVolumes, bind.
  rewrite (addAreasAndVolumes_loop_abort scene _ o after a e before Hoa
             Hraise areas volumes 0 0 p Ha Hv).
  reflexivity.
Qed.

(** ** What every method keeps *)

Lemma grows_ret {A} (a : A) : grows (ret a).
Proof. intros p. exists []. simpl. rewrite app_nil_r. reflexivity. Qed.

Lemma grows_lift {A} (r : Result A) : grows (lift r).
Proof. intros p. exists []. simpl. rewrite app_nil_r. reflexivity. Qed.

Lemma grows_emit (w : Widget) : grows (emit w).
Proof. intros p. exists [w]. reflexivity. Qed.

Lemma grows_set_dist (d : R) : grows (set_dist d).
Proof. intros p. exists []. simpl. rewrite app_nil_r. reflexivity. Qed.

Lemma grows_bind {A B} (m : M A) (k : A -> M B) :
  grows m -> (forall a, grows (k a)) -> grows (bind m k).
Proof.
  intros Hm Hk p. unfold bind. destruct (Hm p) as [l1 H1].
  destruct (m p) as [p1 [a|e]]; simpl in *.
  - destruct (Hk a p1) as [l2 H2]. exists (l1 ++ l2)%list.
    rewrite H2, H1, app_assoc. reflexivity.
  - exists l1. exact H1.
Qed.

Lemma keeps_dist_ret {A} (a : A) : keeps_dist (ret a).
Proof. intros p. reflexivity. Qed.

Lemma keeps_dist_lift {A} (r : Result A) : keeps_dist (lift r).
Proof. intros p. reflexivity. Qed.

Lemma keeps_dist_emit (w : Widget) : keeps_dist (emit w).
Proof. intros p. reflexivity. Qed.

Lemma keeps_dist_bind {A B} (m : M A) (k : A -> M B) :
  keeps_dist m -> (forall a, keeps_dist (k a)) -> keeps_dist (bind m k).
Proof.
  intros Hm Hk p. unfold bind. specialize (Hm p).
  destruct (m p) as [p1 [a|e]]; simpl in *.
  - rewrite (Hk a p1). exact Hm.
  - exact Hm.
Qed.

(** Both invariants, through the structure of a method. *)
Ltac invariant_step :=
  first
    [ apply grows_ret | apply grows_lift | apply grows_emit
    | apply grows_set_dist
    | apply keeps_dist_ret | apply keeps_dist_lift | apply keeps_dist_emit
    | apply grows_bind; [|intros ?]
    | apply keeps_dist_bind; [|intros ?]
    | match goal with
      | |- grows (when ?b _) => destruct b; unfold when
      | |- keeps_dist (when ?b _) => destruct b; unfold when
      | |- grows (match ?x with _ => _ end) => destruct x
      | |- keeps_dist (match ?x with _ => _ end) => destruct x
      | |- grows (if ?b then _ else _) => destruct b
      | |- keeps_dist (if ?b then _ else _) => destruct b
      end ].


Lemma keeps_dist_addAreasAndVolumes_loop (scene : Scene) (g : bool)
    (objs : list PyVal) :
  forall total_area total_volume,
    keeps_dist (addAreasAndVolumes_loop scene g objs total_area total_volume).
Proof.
  induction objs as [|o objs IH]; intros total_area total_volume; simpl.
  - apply keeps_dist_ret.
  - repeat invariant_step. apply IH.
Qed.


(** X11.  Distance.  [addAreasAndVolumes] never changes the stored distance,
    on any arguments and whether it returns or raises. *)
Theorem addAreasAndVolumes_keeps_distance :
  forall (scene : Scene) (objs : list PyVal) (p : Panel),
    measure_panel_dist (fst (addAreasAndVolumes scene objs p))
    = measure_panel_dist p.
Proof.
  intros scene objs. change (keeps_dist (addAreasAndVolumes scene objs)).
  unfold addAreasAndVolumes. cbv zeta.
  apply keeps_dist_bind; [apply keeps_dist_addAreasAndVolumes_loop|].
  intros [total_area total_volume]. repeat invariant_step.
Qed.


(** ** The dispatcher, branch by branch *)

Lemma filter_nonempty {A} (f : A -> bool) (l : list A) :
  Nat.ltb 0 (List.length (filter f l)) = existsb f l.
Proof.
  induction l as [|x l IH]; simpl; [reflexivity|].
  destruct (f x); simpl; [reflexivity | exact IH].
Qed.

(** X13.  Mesh edit mode, outcome.  On an active mesh object [draw] raises
    ValueError when the object matrix has no inverse, whatever is selected
    and in whatever space; otherwise it raises (AttributeError) exactly
    when two vertices are selected and the space is not Local, and returns
    in every other case. *)
Theorem draw_edit_mode_outcome :
  forall (context : Context) (obj : Object) (mesh : Mesh) (p : Panel),
    mode context = "EDIT_MESH" ->
    active_object context = Some obj ->
    mesh_object obj mesh ->
    snd (draw context p)
    = match mat_invert (obj_matrix obj) with
      | None => Raise ValueError
      | Some _ =>
          if Nat.eqb (List.length (filter vert_selected (verts mesh))) 2
             && negb (measureLocal (scene context))
          then Raise AttributeError
          else Ok tt
      end.
Proof.
  intros context obj mesh p Hmode Hact Hobj.
  assert (Harea := objectSurfaceArea_mesh (scene context) obj mesh true
                     (measureGlobal (scene context)) Hobj).
  destruct Hobj as [Ht Hd].
  unfold draw. rewrite Hmode, Hact, Ht, Hd. simpl.
  unfold draw_edit_mesh, invert, bind at 1, lift at 1.
  destruct (mat_invert (obj_matrix obj)); [|reflexivity].
  destruct (filter vert_selected (verts mesh)) as [|v0 [|v1 [|v2 vs]]];
    simpl.
  - destruct (measureLocal (scene context)); reflexivity.
  - destruct (measureLocal (scene context)); reflexivity.
  - destruct (measureLocal (scene context)); reflexivity.
  - destruct (Nat.ltb 0 _); [|reflexivity].
    unfold bind at 1, lift at 1. rewrite Harea. reflexivity.
Qed.

(** X14.  Mesh edit mode, three or more vertices selected.  With a selected
    face [draw] lays out the area of the selected faces of the working
    mesh, times [scale^2]; without one it lays out "Selection not
    supported."; in both cases the stored distance stays what it was. *)
Theorem draw_selected_faces :
  forall (context : Context) (obj : Object) (mesh : Mesh) (inv : Matrix)
         (p : Panel),
    mode context = "EDIT_MESH" ->
    active_object context = Some obj ->
    mesh_object obj mesh ->
    mat_invert (obj_matrix obj) = Some inv ->
    (3 <= List.length (filter vert_selected (verts mesh)))%nat ->
    draw context p
    = (mkPanel (measure_panel_dist p)
         (layout p ++
          if existsb face_selected (faces mesh)
          then [Row;
                Label [Str "Selected Face Area: ";
                       Rounded
                         (Rsum (map face_area
                                  (filter face_selected
                                     (faces (working_mesh obj mesh
                                               (measureGlobal
                                                  (scene context))))))
                          * scale_length (unit_settings (scene context)) ^ 2)
                         PRECISION;
                       Str (units (scene context) 2)] (Some "FACESEL");
                Row; Operator "reenter_editmode" "Update selection & area";
                Row; Prop_ "measure_panel_transform" true]
          else [Row; Label [Str "Selection not supported."] (Some "INFO");
                Row; Operator "reenter_editmode" "Update selection"]),
       Ok tt).
Proof.
  intros context obj mesh inv p Hmode Hact Hobj Hinv Hlen.
  assert (Harea := objectSurfaceArea_mesh (scene context) obj mesh true
                     (measureGlobal (scene context)) Hobj).
  unfold counted_faces in Harea.
  destruct Hobj as [Ht Hd].
  unfold draw. rewrite Hmode, Hact, Ht, Hd. simpl.
  unfold draw_edit_mesh, invert, bind at 1, lift at 1. rewrite Hinv.
  destruct (filter vert_selected (verts mesh)) as [|v0 [|v1 [|v2 vs]]];
    simpl in Hlen; try lia.
  rewrite filter_nonempty.
  destruct (existsb face_selected (faces mesh)).
  - unfold bind at 1, lift at 1. rewrite Harea.
    unfold reenter_row, transform_row, bind, emit. simpl.
    rewrite <- !app_assoc. reflexivity.
  - unfold reenter_row, bind, emit. simpl.
    rewrite <- !app_assoc. reflexivity.
Qed.

(** X15.  Mesh edit mode, one vertex selected.  On an object whose matrix and
    its inverse leave vectors as they are, the stored distance is the same
    in Local and in Global space: from the vertex moved by the object
    location to the cursor. *)
Theorem draw_one_vertex_spaces_agree :
  forall (context : Context) (obj : Object) (mesh : Mesh) (inv : Matrix)
         (v0 : MeshVertex) (p : Panel),
    mode context = "EDIT_MESH" ->
    active_object context = Some obj ->
    mesh_object obj mesh ->
    filter vert_selected (verts mesh) = [v0] ->
    mat_invert (obj_matrix obj) = Some inv ->
    (forall v, vec_mul_mat v (obj_matrix obj) = v) ->
    (forall v, vec_mul_mat v inv = v) ->
    measure_panel_dist (fst (draw context p))
    = distance (vec_add (co v0) (obj_location obj))
               (cursor_location (scene context))
    /\ snd (draw context p) = Ok tt.
Proof.
  intros context obj mesh inv v0 p Hmode Hact [Ht Hd] Hsel Hinv Hmat Hmatinv.
  unfold draw. rewrite Hmode, Hact, Ht, Hd. simpl.
  unfold draw_edit_mesh, invert, bind at 1, lift at 1. rewrite Hinv, Hsel.
  rewrite Hmat, Hmatinv.
  destruct (measureLocal (scene context)); simpl; (split; [|reflexivity]);
    unfold distance, vec_length, vec_sub, vec_add; simpl; f_equal; ring.
Qed.

Lemma single_measurements (scene : Scene) (o : Object) :
  object_well_formed (measureGlobal scene) o ->
  exists area volume,
    objectSurfaceArea scene (PyObj o) false (measureGlobal scene) = Ok area
    /\ objectVolume scene (PyObj o) (measureGlobal scene) = Ok volume.
Proof.
  intros Hwf.
  destruct (objectSurfaceArea_returns scene o false (measureGlobal scene))
    as [a Ha].
  destruct (objectVolume_returns scene o (measureGlobal scene) Hwf)
    as [v Hv].
  exists a, v. split; assumption.
Qed.

(** Object mode with the active object as the one selected object. *)
Lemma draw_one_object_run (context : Context) (o : Object)
    (area volume : R) (p : Panel) :
  mode context = "OBJECT" ->
  List.length (selected_objects context) = 1%nat ->
  active_object context = Some o ->
  obj_selected o = true ->
  objectSurfaceArea (scene context) (PyObj o) false
    (measureGlobal (scene context)) = Ok area ->
  objectVolume (scene context) (PyObj o)
    (measureGlobal (scene context)) = Ok volume ->
  draw context p
  = (mkPanel (distance (obj_location o) (cursor_location (scene context)))
       (layout p ++
        [Row; Prop_ "measure_panel_dist" false;
         Row; Label [Str ""] (Some "CURSOR");
         Label [Str ""] (Some "ARROW_LEFTRIGHT");
         Label [Str (obj_name o)] (Some "OBJECT_DATA")] ++
        object_rows (scene context) o area volume ++
        [Row; Prop_ "measure_panel_transform" true]),
     Ok tt).
Proof.
  intros Hmode Hlen Hact Hsel Ha Hv.
  unfold draw, draw_object. rewrite Hmode. simpl.
  unfold one_selected. rewrite Hlen, Hact, Hsel. simpl.
  unfold bind at 1, lift at 1. simpl.
  unfold set_dist, dist_row, transform_row, bind, emit. simpl.
  rewrite (addAreasAndVolumes_run (scene context) [o] [area] [volume]).
  - simpl. rewrite <- !app_assoc. reflexivity.
  - constructor; [exact Ha | constructor].
  - constructor; [exact Hv | constructor].
Qed.

(** X16.  Object mode, one object.  When one object is selected and the active
    object is selected, [draw] stores the distance from the active object
    to the cursor and lays out the distance rows, the area and the volume
    of the active object (no totals) and the space selector. *)
Theorem draw_one_object :
  forall (context : Context) (o : Object) (p : Panel),
    mode context = "OBJECT" ->
    List.length (selected_objects context) = 1%nat ->
    active_object context = Some o ->
    obj_selected o = true ->
    object_well_formed (measureGlobal (scene context)) o ->
    exists area volume,
      objectSurfaceArea (scene context) (PyObj o) false
        (measureGlobal (scene context)) = Ok area
      /\ objectVolume (scene context) (PyObj o)
           (measureGlobal (scene context)) = Ok volume
      /\ draw context p
         = (mkPanel (distance (obj_location o)
                       (cursor_location (scene context)))
              (layout p ++
               [Row; Prop_ "measure_panel_dist" false;
                Row; Label [Str ""] (Some "CURSOR");
                Label [Str ""] (Some "ARROW_LEFTRIGHT");
                Label [Str (obj_name o)] (Some "OBJECT_DATA")] ++
               object_rows (scene context) o area volume ++
               [Row; Prop_ "measure_panel_transform" true]),
            Ok tt).
Proof.
  intros context o p Hmode Hlen Hact Hsel Hwf.
  destruct (single_measurements (scene context) o Hwf) as (a & v & Ha & Hv).
  exists a, v. split; [exact Ha|]. split; [exact Hv|].
  apply draw_one_object_run; assumption.
Qed.

(** X17.  Object mode, outcome.  When the object measured in the one-object
    branch has a readable mesh, [draw] raises exactly in two cases: two
    objects are selected (UnboundLocalError), or more than two are and one
    of them is a mesh with data (AttributeError). *)
Theorem draw_object_mode_outcome :
  forall (context : Context) (p : Panel),
    mode context = "OBJECT" ->
    (forall o, one_selected (active_object context)
                 (selected_objects context) = Some o ->
               object_well_formed (measureGlobal (scene context)) o) ->
    snd (draw context p)
    = if Nat.ltb 2 (List.length (selected_objects context))
      then if existsb (fun o => (obj_type o =? "MESH") && has_data o)
                (selected_objects context)
           then Raise AttributeError
           else Ok tt
      else if Nat.eqb (List.length (selected_objects context)) 2
           then Raise UnboundLocalError
           else Ok tt.
Proof.
  intros context p Hmode Hwf.
  destruct (Nat.ltb 2 (List.length (selected_objects context))) eqn:Emany.
  - unfold draw, draw_object. rewrite Hmode. simpl. rewrite Emany.
    rewrite filter_nonempty.
    destruct (existsb _ (selected_objects context)) eqn:Emesh;
      [|reflexivity].
    rewrite <- filter_nonempty in Emesh. simpl.
    unfold addAreasAndVolumes, bind. simpl.
    unfold bind, lift, objectSurfaceArea, mesh_guard. simpl.
    destruct (filter _ (selected_objects context));
      [discriminate | reflexivity].
  - destruct (Nat.eqb (List.length (selected_objects context)) 2) eqn:Etwo.
    + destruct (selected_objects context) as [|o1 [|o2 [|? ?]]] eqn:Esel;
        try discriminate.
      rewrite (draw_two_objects context o1 o2 p Hmode Esel). reflexivity.
    + destruct (one_selected (active_object context)
                  (selected_objects context)) as [o|] eqn:Eone.
      * assert (Hwfo := Hwf o eq_refl). clear Hwf.
        assert (Hone := Eone). unfold one_selected in Hone.
        destruct (active_object context) as [a|] eqn:Eact; [|discriminate].
        destruct (obj_selected a) eqn:Ea; [|discriminate].
        destruct (Nat.eqb (List.length (selected_objects context)) 1)
          eqn:El; [|discriminate].
        simpl in Hone. injection Hone as ->.
        apply Nat.eqb_eq in El.
        destruct (single_measurements (scene context) o Hwfo)
          as (ar & vo & Har & Hvo).
        rewrite (draw_one_object_run context o ar vo p Hmode El Eact Ea
                   Har Hvo).
        reflexivity.
      * unfold draw, draw_object. rewrite Hmode. simpl.
        rewrite Emany, Etwo, Eone.
        destruct (Nat.eqb (List.length (selected_objects context)) 0);
          reflexivity.
Qed.

(** X18.  Nothing drawn.  [draw] returns with the panel exactly as it was, not
    even a "not supported" row, in a mode that is neither mesh edit mode
    nor object mode, in mesh edit mode without an active mesh object with
    data, and in object mode with more than two selected objects none of
    which is a mesh with data. *)
Theorem draw_draws_nothing :
  forall (context : Context) (p : Panel),
    (mode context <> "EDIT_MESH" /\ mode context <> "OBJECT")
    \/ (mode context = "EDIT_MESH" /\
        forall obj mesh, active_object context = Some obj ->
                         ~ mesh_object obj mesh)
    \/ (mode context = "OBJECT" /\
        (2 < List.length (selected_objects context))%nat /\
        Forall (fun o => forall mesh, ~ mesh_object o mesh)
               (selected_objects context)) ->
    draw context p = (p, Ok tt).
Proof.
  intros context p [[He Ho]|[[He Hno]|(Ho & Hlen & Hnone)]]; unfold draw.
  - apply String.eqb_neq in He, Ho. rewrite He, Ho. reflexivity.
  - rewrite He. simpl.
    destruct (active_object context) as [obj|]; [|reflexivity].
    destruct (obj_type obj =? "MESH") eqn:Et; [|reflexivity].
    destruct (obj_data obj) as [mesh|] eqn:Ed; [|reflexivity].
    exfalso. apply (Hno obj mesh eq_refl).
    apply String.eqb_eq in Et. split; assumption.
  - rewrite Ho. simpl. unfold draw_object.
    apply Nat.ltb_lt in Hlen. rewrite Hlen. rewrite filter_nonempty.
    replace (existsb _ (selected_objects context)) with false; [reflexivity|].
    symmetry. apply not_true_is_false. intros Hex.
    apply existsb_exists in Hex. destruct Hex as (o & Hin & Ho').
    apply andb_true_iff in Ho'. destruct Ho' as [Ht Hd].
    rewrite Forall_forall in Hnone. unfold has_data in Hd.
    destruct (obj_data o) as [mesh|] eqn:Ed; [|discriminate].
    apply (Hnone o Hin mesh). apply String.eqb_eq in Ht. split; assumption.
Qed.

(** X19.  Object mode, one object selected but no selected active object.
    [draw] lays out "Selection not supported." and leaves the stored
    distance as it was. *)
Theorem draw_selection_not_supported :
  forall (context : Context) (p : Panel),
    mode context = "OBJECT" ->
    List.length (selected_objects context) = 1%nat ->
    (forall o, active_object context = Some o -> obj_selected o = false) ->
    draw context p
    = (mkPanel (measure_panel_dist p)
         (layout p ++
          [Row; Label [Str "Selection not supported."] (Some "INFO")]),
       Ok tt).
Proof.
  intros context p Hmode Hlen Hact.
  unfold draw, draw_object. rewrite Hmode. simpl. rewrite Hlen. simpl.
  unfold one_selected.
  destruct (active_object context) as [o|].
  - rewrite (Hact o eq_refl). simpl.
    unfold bind, emit. simpl. rewrite <- !app_assoc. reflexivity.
  - unfold bind, emit. simpl. rewrite <- !app_assoc. reflexivity.
Qed.

End Properties.

(** ** On the identity host *)

(** Mesh edit mode, vertices (0,0,0) and (1,1,1) selected, Local space:
    the stored distance is sqrt 3. *)
Example draw_two_vertices_local (p : Panel) :
  fst (draw (host := identity_host)
         (two_vertices_context identity_matrix "measure_local") p)
  = mkPanel (sqrt 3)
      (layout p ++
       [Row; Prop_ "measure_panel_dist" false;
        Row; Label [Str ""] (Some "VERTEXSEL");
        Label [Str ""] (Some "ARROW_LEFTRIGHT");
        Label [Str ""] (Some "VERTEXSEL");
        Row; Operator "reenter_editmode" "Update selection & distance";
        Row; Prop_ "measure_panel_transform" true])
  /\ snd (draw (host := identity_host)
            (two_vertices_context identity_matrix "measure_local") p) = Ok tt.
Proof.
  rewrite (draw_two_vertices (host := identity_host) _
             (segment_object identity_matrix) segment_mesh
             (mkVertex (mkVector 0 0 0) true) (mkVertex (mkVector 1 1 1) true))
    by (reflexivity || (split; reflexivity)).
  simpl. split; [|reflexivity]. f_equal.
  unfold distance, vec_length, vec_sub. simpl. f_equal. ring.
Qed.

(** C7, on the code.  Mesh edit mode, vertices (0,0,0) and (1,1,1)
    selected, Global space: the panel raises AttributeError on the
    attribute [lentgh]; the displayed distance is not stored and nothing
    is laid out. *)
Theorem draw_two_vertices_global_raises :
  forall p : Panel,
    draw (host := identity_host)
      (two_vertices_context identity_matrix "measure_global") p
    = (p, Raise AttributeError).
Proof.
  intros p.
  rewrite (draw_two_vertices (host := identity_host) _
             (segment_object identity_matrix) segment_mesh
             (mkVertex (mkVector 0 0 0) true) (mkVertex (mkVector 1 1 1) true))
    by (reflexivity || (split; reflexivity)).
  reflexivity.
Qed.

(** The suffix is there for degree 1: the label is "m^1", not "m". *)
Lemma units_degree_one_counterexample :
  units metric_scene 1 = "m^1" /\ units metric_scene 1 <> "m".
Proof. split; [reflexivity | discriminate]. Qed.

Lemma objectVolume_triangle_mesh_witness :
  objectVolume (host := identity_host) (plain_scene 2 "measure_local")
    (PyObj (cube_object identity_matrix)) false
  = Ok (Rsum (map (face_triple cube_mesh) cube_faces) / 6 * 2 ^ 3).
Proof.
  apply (proj1 (objectVolume_triangle_mesh (host := identity_host))
           (plain_scene 2 "measure_local")
           (cube_object identity_matrix) cube_mesh false).
  - split; reflexivity.
  - exact cube_triangles.
  - exact cube_well_formed.
Defined.

Lemma objectVolume_quad_unsupported_witness :
  objectVolume (host := identity_host) (plain_scene 1 "measure_global")
    (PyObj (mixed_object identity_matrix)) true
  = Ok (-1) /\ -1 < 0.
Proof.
  apply (objectVolume_quad_unsupported (host := identity_host)
           (plain_scene 1 "measure_global")
           (mixed_object identity_matrix) mixed_mesh true).
  - split; reflexivity.
  - exact mixed_well_formed.
  - simpl. right. right. left. simpl. lia.
Defined.

Lemma objectSurfaceArea_selected_sum_witness :
  objectSurfaceArea (host := identity_host) (plain_scene 3 "measure_local")
    (PyObj (four_faces_object identity_matrix)) true false
  = Ok ((1 / 2 + 1) * 3 ^ 2).
Proof.
  apply (proj1 (proj2 (objectSurfaceArea_selected_sum
                         (host := identity_host)
                         (plain_scene 3 "measure_local")
                         (four_faces_object identity_matrix)
                         four_faces_mesh true false
                         (conj eq_refl eq_refl)))
           (mkFace [0; 2; 3]%nat true (1 / 2))
           (mkFace [4; 5; 7; 6]%nat true 1)).
  - reflexivity.
  - reflexivity.
Defined.

Lemma cube_areas_nonneg : Forall (fun f => 0 <= face_area f) cube_faces.
Proof. repeat (constructor; [simpl; lra|]). constructor. Defined.

Lemma objectSurfaceArea_sentinel_witness :
  exists area,
    objectSurfaceArea (host := identity_host) (plain_scene 1 "measure_local")
      (PyObj (cube_object identity_matrix)) false false = Ok area
    /\ area = Rsum (map face_area cube_faces) * 1 ^ 2
    /\ 0 <= area /\ area <> -1.
Proof.
  apply (proj2 (proj2 (objectSurfaceArea_sentinel (host := identity_host)
                         (plain_scene 1 "measure_local") false false))
           (cube_object identity_matrix) cube_mesh).
  - split; reflexivity.
  - exact cube_areas_nonneg.
Defined.

(** The cube, an object without data and the mesh with a quad. *)
Lemma three_objects_well_formed (g : bool) :
  Forall (object_well_formed (host := identity_host) g)
    [the_cube; the_empty; the_mixed].
Proof.
  repeat constructor.
  - apply (object_well_formed_data g the_cube cube_mesh eq_refl).
    destruct g; exact cube_well_formed.
  - apply object_well_formed_no_data. reflexivity.
  - apply (object_well_formed_data g the_mixed mixed_mesh eq_refl).
    destruct g; exact mixed_well_formed.
Defined.

Lemma addAreasAndVolumes_skips_unsupported_witness :
  exists areas volumes : list R,
    Forall2 (fun o a =>
               objectSurfaceArea (host := identity_host) metric_scene
                 (PyObj o) false true = Ok a)
            [the_cube; the_empty; the_mixed] areas
    /\ Forall2 (fun o v =>
                  objectVolume (host := identity_host) metric_scene
                    (PyObj o) true = Ok v)
               [the_cube; the_empty; the_mixed] volumes
    /\ totals (host := identity_host) metric_scene
         [the_cube; the_empty; the_mixed] (mkPanel 0 [])
       = Ok (Rsum (filter nonneg areas), Rsum (filter nonneg volumes))
    /\ snd (addAreasAndVolumes (host := identity_host) metric_scene
              (map PyObj [the_cube; the_empty; the_mixed])
              (mkPanel 0 []))
       = Ok (Rsum (filter nonneg areas)).
Proof.
  apply (addAreasAndVolumes_skips_unsupported (host := identity_host)
           metric_scene [the_cube; the_empty; the_mixed]
           (mkPanel 0 [])).
  exact (three_objects_well_formed true).
Defined.

Lemma inward_objects_well_formed (g : bool) :
  Forall (object_well_formed (host := identity_host) g)
    [the_cube; the_inward; the_mixed].
Proof.
  repeat constructor.
  - apply (object_well_formed_data g the_cube cube_mesh eq_refl).
    destruct g; exact cube_well_formed.
  - apply (object_well_formed_data g the_inward inward_cube_mesh eq_refl).
    destruct g; exact inward_cube_well_formed.
  - apply (object_well_formed_data g the_mixed mixed_mesh eq_refl).
    destruct g; exact mixed_well_formed.
Defined.

Lemma totals_never_negative_witness :
  exists total_area total_area' total_volume,
    totals (host := identity_host) (plain_scene 2 "measure_local")
      [the_cube; the_inward; the_mixed] (mkPanel 0 [])
    = Ok (total_area, total_volume)
    /\ totals (host := identity_host) (plain_scene 2 "measure_local")
         [the_cube; the_empty; the_mixed] (mkPanel 0 [])
       = Ok (total_area', total_volume)
    /\ totals (host := identity_host) (plain_scene 2 "measure_local")
         [the_cube; the_mixed] (mkPanel 0 [])
       = Ok (total_area', total_volume).
Proof.
  apply (proj2 (totals_never_negative (host := identity_host)
                  (plain_scene 2 "measure_local")
                  [the_cube; the_inward; the_mixed]
                  (mkPanel 0 []) (inward_objects_well_formed false))
           [the_cube] [the_mixed] the_inward
           the_empty (-8)).
  - reflexivity.
  - exact (inward_cube_volume identity_matrix "measure_local").
  - lra.
  - reflexivity.
Defined.

(** ** The further properties on the identity host *)

Lemma broken_volume_raises (scene : Scene) (g : bool) :
  objectVolume (host := identity_host) scene (PyObj the_broken) g
  = Raise IndexError.
Proof. destruct g; reflexivity. Defined.

Lemma objectVolume_index_error_witness :
  objectVolume (host := identity_host) metric_scene (PyObj the_broken) true
  = Raise IndexError.
Proof.
  apply (objectVolume_index_error (host := identity_host) metric_scene
           the_broken broken_mesh true [tri 0 2 3] [tri 4 5 7] (tri 0 9 1)).
  - split; reflexivity.
  - reflexivity.
  - repeat constructor; simpl; lia.
  - split; [simpl; lia|]. right. simpl. right. left. lia.
Defined.

Lemma objectVolume_winding_witness :
  exists v,
    objectVolume (host := identity_host) metric_scene (PyObj the_cube) false
    = Ok v
    /\ objectVolume (host := identity_host) metric_scene (PyObj the_inward)
         false = Ok (- v).
Proof.
  apply (objectVolume_winding (host := identity_host) metric_scene
           the_cube the_inward cube_mesh).
  - split; reflexivity.
  - split; reflexivity.
  - exact cube_triangles.
  - exact cube_well_formed.
Defined.

Lemma objectVolume_face_lists_add_witness :
  exists v1 v2,
    objectVolume (host := identity_host) metric_scene
      (PyObj (mesh_holder "Lower"
                (mkMesh cube_verts (firstn 4 cube_faces)) identity_matrix))
      false = Ok v1
    /\ objectVolume (host := identity_host) metric_scene
         (PyObj (mesh_holder "Upper"
                   (mkMesh cube_verts (skipn 4 cube_faces)) identity_matrix))
         false = Ok v2
    /\ objectVolume (host := identity_host) metric_scene (PyObj the_cube)
         false = Ok (v1 + v2).
Proof.
  apply (objectVolume_face_lists_add (host := identity_host) metric_scene
           _ _ the_cube cube_verts (firstn 4 cube_faces)
           (skipn 4 cube_faces)).
  - split; reflexivity.
  - split; reflexivity.
  - split; reflexivity.
  - exact cube_triangles.
  - exact cube_well_formed.
Defined.

Lemma empty_measures_zero_witness :
  objectVolume (host := identity_host) metric_scene
    (PyObj (segment_object identity_matrix)) true = Ok 0.
Proof.
  apply (proj2 (empty_measures_zero (host := identity_host) metric_scene
                  (segment_object identity_matrix) segment_mesh false true
                  (conj eq_refl eq_refl))).
  reflexivity.
Defined.

Lemma four_faces_areas_nonneg :
  Forall (fun f => 0 <= face_area f) (faces four_faces_mesh).
Proof. repeat (constructor; [simpl; lra|]). constructor. Defined.

Lemma selected_area_at_most_total_witness :
  exists selected_area total_area,
    objectSurfaceArea (host := identity_host) metric_scene
      (PyObj (four_faces_object identity_matrix)) true false
    = Ok selected_area
    /\ objectSurfaceArea (host := identity_host) metric_scene
         (PyObj (four_faces_object identity_matrix)) false false
       = Ok total_area
    /\ 0 <= selected_area <= total_area.
Proof.
  apply (selected_area_at_most_total (host := identity_host) metric_scene
           (four_faces_object identity_matrix) four_faces_mesh false).
  - split; reflexivity.
  - exact four_faces_areas_nonneg.
Defined.

Lemma addAreasAndVolumes_layout_witness :
  exists areas volumes : list R,
    Forall2 (fun o a =>
               objectSurfaceArea (host := identity_host) metric_scene
                 (PyObj o) false true = Ok a)
            [the_cube; the_empty; the_mixed] areas
    /\ Forall2 (fun o v =>
                  objectVolume (host := identity_host) metric_scene
                    (PyObj o) true = Ok v)
               [the_cube; the_empty; the_mixed] volumes
    /\ addAreasAndVolumes (host := identity_host) metric_scene
         (map PyObj [the_cube; the_empty; the_mixed]) (mkPanel 0 [])
       = (mkPanel 0
            ([] ++ objects_rows metric_scene
                     [the_cube; the_empty; the_mixed] areas volumes ++
             total_rows metric_scene (Rsum (filter nonneg areas))
               (Rsum (filter nonneg volumes))),
          Ok (Rsum (filter nonneg areas))).
Proof.
  apply (addAreasAndVolumes_layout (host := identity_host) metric_scene
           [the_cube; the_empty; the_mixed] (mkPanel 0 [])).
  exact (three_objects_well_formed true).
Defined.

Lemma aggregations_agree_witness :
  exists total_area total_volume,
    totals (host := identity_host) metric_scene
      [the_cube; the_empty; the_mixed] (mkPanel 0 [])
    = Ok (total_area, total_volume)
    /\ snd (addAreasAndVolumes (host := identity_host) metric_scene
              (map PyObj [the_cube; the_empty; the_mixed]) (mkPanel 0 []))
       = Ok total_area
    /\ snd (addObjectAreas (host := identity_host) metric_scene
              (map PyObj [the_cube; the_empty; the_mixed]) (mkPanel 0 []))
       = Ok total_area
    /\ snd (addObjectVolumes (host := identity_host) metric_scene
              (map PyObj [the_cube; the_empty; the_mixed]) (mkPanel 0 []))
       = Ok total_volume.
Proof.
  apply (aggregations_agree (host := identity_host) metric_scene
           [the_cube; the_empty; the_mixed] (mkPanel 0 [])).
  exact (three_objects_well_formed true).
Defined.

Lemma cube_alone_well_formed (g : bool) :
  Forall (object_well_formed (host := identity_host) g) [the_cube].
Proof.
  repeat constructor.
  apply (object_well_formed_data g the_cube cube_mesh eq_refl).
  destruct g; exact cube_well_formed.
Defined.

Lemma addAreasAndVolumes_aborts_witness :
  exists (areas volumes : list R) (a : R),
    Forall2 (fun o a =>
               objectSurfaceArea (host := identity_host) metric_scene
                 (PyObj o) false true = Ok a) [the_cube] areas
    /\ Forall2 (fun o v =>
                  objectVolume (host := identity_host) metric_scene
                    (PyObj o) true = Ok v) [the_cube] volumes
    /\ objectSurfaceArea (host := identity_host) metric_scene
         (PyObj the_broken) false true = Ok a
    /\ addAreasAndVolumes (host := identity_host) metric_scene
         (map PyObj [the_cube; the_broken; the_mixed]) (mkPanel 0 [])
       = (mkPanel 0
            ([] ++ objects_rows metric_scene [the_cube] areas volumes ++
             [Row;
              Label [Str "Broken S.A.: "; Rounded a PRECISION; Str "m^2"]
                (Some "OBJECT_DATA")]),
          Raise IndexError).
Proof.
  apply (addAreasAndVolumes_aborts (host := identity_host) metric_scene
           [the_cube] [the_mixed] the_broken IndexError (mkPanel 0 [])).
  - exact (cube_alone_well_formed true).
  - exact (broken_volume_raises metric_scene true).
Defined.

Lemma draw_edit_mode_outcome_witness :
  snd (draw (host := identity_host)
         (two_vertices_context identity_matrix "measure_global")
         (mkPanel 0 []))
  = Raise AttributeError.
Proof.
  apply (draw_edit_mode_outcome (host := identity_host)
           (two_vertices_context identity_matrix "measure_global")
           (segment_object identity_matrix) segment_mesh (mkPanel 0 [])).
  - reflexivity.
  - reflexivity.
  - split; reflexivity.
Defined.

Lemma draw_selected_faces_witness :
  draw (host := identity_host)
    (edit_context (selected_object identity_matrix) "measure_local")
    (mkPanel 7 [])
  = (mkPanel 7
       [Row;
        Label [Str "Selected Face Area: ";
               Rounded (Rsum (map face_area
                                (filter face_selected
                                   (faces four_faces_mesh))) * 1 ^ 2)
                 PRECISION;
               Str "BU^2"] (Some "FACESEL");
        Row; Operator "reenter_editmode" "Update selection & area";
        Row; Prop_ "measure_panel_transform" true],
     Ok tt).
Proof.
  apply (draw_selected_faces (host := identity_host)
           (edit_context (selected_object identity_matrix) "measure_local")
           (selected_object identity_matrix) selected_mesh identity_matrix
           (mkPanel 7 [])).
  - reflexivity.
  - reflexivity.
  - split; reflexivity.
  - reflexivity.
  - simpl. lia.
Defined.

Lemma draw_one_vertex_spaces_agree_witness :
  measure_panel_dist
    (fst (draw (host := identity_host)
            (edit_context (one_vertex_object identity_matrix)
               "measure_global") (mkPanel 0 [])))
  = distance (vec_add (mkVector 1 2 2) (mkVector 1 1 1)) (mkVector 0 0 0)
  /\ snd (draw (host := identity_host)
            (edit_context (one_vertex_object identity_matrix)
               "measure_global") (mkPanel 0 []))
     = Ok tt.
Proof.
  apply (draw_one_vertex_spaces_agree (host := identity_host)
           (edit_context (one_vertex_object identity_matrix)
              "measure_global")
           (one_vertex_object identity_matrix) one_vertex_mesh
           identity_matrix (mkVertex (mkVector 1 2 2) true) (mkPanel 0 [])).
  - reflexivity.
  - reflexivity.
  - split; reflexivity.
  - reflexivity.
  - reflexivity.
  - reflexivity.
  - reflexivity.
Defined.

Lemma draw_one_object_witness :
  exists area volume,
    objectSurfaceArea (host := identity_host)
      (plain_scene 1 "measure_local") (PyObj the_cube) false false = Ok area
    /\ objectVolume (host := identity_host)
         (plain_scene 1 "measure_local") (PyObj the_cube) false = Ok volume
    /\ draw (host := identity_host)
         (object_context (Some the_cube) [the_cube]) (mkPanel 0 [])
       = (mkPanel (distance (mkVector 0 0 0) (mkVector 0 0 0))
            ([] ++
             [Row; Prop_ "measure_panel_dist" false;
              Row; Label [Str ""] (Some "CURSOR");
              Label [Str ""] (Some "ARROW_LEFTRIGHT");
              Label [Str "Cube"] (Some "OBJECT_DATA")] ++
             object_rows (plain_scene 1 "measure_local") the_cube area
               volume ++
             [Row; Prop_ "measure_panel_transform" true]),
          Ok tt).
Proof.
  apply (draw_one_object (host := identity_host)
           (object_context (Some the_cube) [the_cube]) the_cube
           (mkPanel 0 [])).
  - reflexivity.
  - reflexivity.
  - reflexivity.
  - reflexivity.
  - apply (object_well_formed_data false the_cube cube_mesh eq_refl).
    exact cube_well_formed.
Defined.

Lemma draw_object_mode_outcome_witness :
  snd (draw (host := identity_host)
         (object_context (Some the_cube) [the_cube]) (mkPanel 0 []))
  = Ok tt.
Proof.
  apply (draw_object_mode_outcome (host := identity_host)
           (object_context (Some the_cube) [the_cube]) (mkPanel 0 [])).
  - reflexivity.
  - intros o H. simpl in H. injection H as <-.
    apply (object_well_formed_data false the_cube cube_mesh eq_refl).
    exact cube_well_formed.
Defined.

Lemma draw_draws_nothing_witness :
  draw (host := identity_host)
    (object_context (Some the_empty) [the_empty; the_empty; the_empty])
    (mkPanel 3 [Row])
  = (mkPanel 3 [Row], Ok tt).
Proof.
  apply (draw_draws_nothing (host := identity_host)
           (object_context (Some the_empty) [the_empty; the_empty; the_empty])
           (mkPanel 3 [Row])).
  right. right. split; [reflexivity|]. split; [simpl; lia|].
  repeat constructor; intros mesh [Ht _]; discriminate Ht.
Defined.

Lemma draw_selection_not_supported_witness :
  draw (host := identity_host) (object_context None [the_cube])
    (mkPanel 3 [])
  = (mkPanel 3 [Row; Label [Str "Selection not supported."] (Some "INFO")],
     Ok tt).
Proof.
  apply (draw_selection_not_supported (host := identity_host)
           (object_context None [the_cube]) (mkPanel 3 [])).
  - reflexivity.
  - reflexivity.
  - intros o H. discriminate H.
Defined.
